(** * The Jaeger driver of OSProfiler: a shallow embedding and its properties

    The embedded program is [osprofiler/drivers/jaeger.py]: the class
    [Jaeger] with its methods [notify] and [create_span_tags].

    Conventions of the embedding.
    - Python values that travel in a notification payload are the JSON-like
      values of [pyval]; a Python [dict] with string keys is a
      [gmap string pyval].  Floats, bytes and user objects do not occur.
    - A Python exception is a value of [exn]; code that may raise returns a
      [result].  A method that also mutates the driver returns the result
      together with the driver's state after the call, so the mutations made
      before a [raise] stay visible, as in Python.
    - The JSON serializer and [strptime] are collaborators outside the
      repository and enter as section variables ([dumps], [strptime]).
    - The OpenTelemetry calls are modelled after the library, with its
      defaults (parent-based always-on sampler, no limit on the length of
      attribute values, at most 128 attributes): [SpanContext_new] raises
      [TypeError] on identifiers that cannot be compared with integers,
      [start_span] forgets a parent whose context is not valid and keeps of
      the attributes only the values a span can hold.  The identifiers the
      tracer draws for a new span are a section variable
      ([new_span_context]).
    - The [print] calls of [notify] write diagnostics to stdout; they touch
      neither the driver nor the control flow and are left out. *)

From stdpp Require Import gmap strings list fin_maps.
From Stdlib Require Import ZArith Lia Ascii.
From Stdlib Require QArith.QArith_base.

Set Warnings "-register-all".

(** ** Python values, exceptions and results *)

Inductive pyval : Type :=
| PNone
| PBool (b : bool)
| PInt (z : Z)
| PStr (s : string)
| PList (l : list pyval)
| PDict (d : gmap string pyval).

Inductive exn : Type :=
| KeyError (key : string)
| TypeError
| ValueError
| AttributeError
| IndexError.

Inductive result (A : Type) : Type :=
| Ok (a : A)
| Raise (e : exn).
Arguments Ok {A} a.
Arguments Raise {A} e.

#[global] Instance result_ret : MRet result := fun A a => Ok a.
#[global] Instance result_bind : MBind result := fun A B f m =>
  match m with
  | Ok a => f a
  | Raise e => Raise e
  end.
#[global] Instance result_throw : MThrow exn result := fun A e => Raise e.

Definition is_ok {A} (r : result A) : bool :=
  match r with Ok _ => true | Raise _ => false end.

(** ** Python primitives used by the driver *)

Module Py.

(** [bool(v)]: the truth value Python gives to [v] in an [if]. *)
Definition truthy (v : pyval) : bool :=
  match v with
  | PNone => false
  | PBool b => b
  | PInt z => negb (z =? 0)%Z
  | PStr s => negb (String.eqb s "")
  | PList l => negb (length l =? 0)%nat
  | PDict d => negb (size d =? 0)%nat
  end.

(** [v is not None] *)
Definition is_not_none (v : pyval) : bool :=
  match v with PNone => false | _ => true end.

(** The integer that [v] stands for in a comparison with an [int]: the
    integers and, [bool] being a subclass of [int], the two booleans.  For
    any other value the comparison raises [TypeError]. *)
Definition int_value (v : pyval) : option Z :=
  match v with
  | PInt z => Some z
  | PBool b => Some (if b then 1 else 0)%Z
  | _ => None
  end.

(** [d[k]] on a dict with string keys. *)
Definition subscript (d : gmap string pyval) (k : string) : result pyval :=
  match d !! k with
  | Some v => Ok v
  | None => Raise (KeyError k)
  end.

(** [v[k]] for a string key [k]: only a dict can be indexed by a string. *)
Definition getitem (v : pyval) (k : string) : result pyval :=
  match v with
  | PDict d => subscript d k
  | _ => Raise TypeError
  end.

(** [v.get(k)]: the method exists on dicts only; a missing key gives
    [None]. *)
Definition dict_get (v : pyval) (k : string) : result pyval :=
  match v with
  | PDict d => Ok (default PNone (d !! k))
  | _ => Raise AttributeError
  end.

Fixpoint str_mem (c : ascii) (s : string) : bool :=
  match s with
  | EmptyString => false
  | String c' s' => if decide (c = c') then true else str_mem c s'
  end.

(** [needle in hay] for two strings: substring search. *)
Fixpoint str_contains (needle hay : string) : bool :=
  String.prefix needle hay
  || match hay with
     | EmptyString => false
     | String _ hay' => str_contains needle hay'
     end.

(** [k in v] for a string [k]: key test on a dict, substring test on a
    string, element test on a list; the other values are not iterable. *)
Definition contains (k : string) (v : pyval) : result bool :=
  match v with
  | PDict d => Ok (bool_decide (is_Some (d !! k)))
  | PStr s => Ok (str_contains k s)
  | PList l =>
      Ok (existsb (fun x => match x with
                            | PStr s => String.eqb k s
                            | _ => false
                            end) l)
  | _ => Raise TypeError
  end.

(** [s.endswith(suffix)]: some tail of [s] is [suffix]. *)
Fixpoint endswith (s suffix : string) : bool :=
  String.eqb s suffix
  || match s with
     | EmptyString => false
     | String _ s' => endswith s' suffix
     end.

(** [s.rstrip(chars)]: drop from the right end of [s] every character that
    occurs in [chars], up to the first character that does not. *)
Fixpoint rstrip (s chars : string) : string :=
  match s with
  | EmptyString => EmptyString
  | String c s' =>
      match rstrip s' chars with
      | EmptyString => if str_mem c chars then EmptyString else String c EmptyString
      | r => String c r
      end
  end.

(** The two string methods reached through a payload value: any value
    that is not a string has neither method. *)
Definition str_endswith (v : pyval) (suffix : string) : result bool :=
  match v with
  | PStr s => Ok (endswith s suffix)
  | _ => Raise AttributeError
  end.

Definition str_rstrip (v : pyval) (chars : string) : result string :=
  match v with
  | PStr s => Ok (rstrip s chars)
  | _ => Raise AttributeError
  end.

(** [collections.deque]: [append] adds at the right end, [pop] removes
    the rightmost element and raises [IndexError] on an empty deque. *)
Definition deque_append {A} (d : list A) (a : A) : list A := d ++ [a].

Definition deque_pop {A} (d : list A) : result (A * list A) :=
  match rev d with
  | [] => Raise IndexError
  | a :: r => Ok (a, rev r)
  end.

End Py.

(** ** The tag builder: [Jaeger.create_span_tags] *)

Section TagBuilder.

(** [jsonutils.dumps] of oslo.serialization. *)
Variable dumps : pyval -> string.

Definition create_span_tags (payload : gmap string pyval)
  : result (gmap string pyval) :=
  let tags : gmap string pyval := ∅ in
  info ← Py.subscript payload "info";
  db ← Py.dict_get info "db";
  if Py.truthy db then
    (* DB calls *)
    statement ← Py.getitem info "db" ≫= (fun d => Py.getitem d "statement");
    let tags := <["db.statement" := statement]> tags in
    params ← Py.getitem info "db" ≫= (fun d => Py.getitem d "params");
    let tags := <["db.params" := PStr (dumps params)]> tags in
    mret tags
  else
    request ← Py.dict_get info "request";
    if Py.truthy request then
      (* WSGI call *)
      path ← Py.getitem info "request" ≫= (fun r => Py.getitem r "path");
      let tags := <["http.path" := path]> tags in
      query ← Py.getitem info "request" ≫= (fun r => Py.getitem r "query");
      let tags := <["http.query" := query]> tags in
      method ← Py.getitem info "request" ≫= (fun r => Py.getitem r "method");
      let tags := <["http.method" := method]> tags in
      scheme ← Py.getitem info "request" ≫= (fun r => Py.getitem r "scheme");
      let tags := <["http.scheme" := scheme]> tags in
      mret tags
    else
      function ← Py.dict_get info "function";
      if Py.truthy function then
        (* RPC, function calls *)
        has_args ← Py.getitem info "function" ≫= Py.contains "args";
        tags ← (if has_args : bool then
                  args ← Py.getitem info "function" ≫= (fun f => Py.getitem f "args");
                  mret (<["args" := args]> tags)
                else mret tags);
        has_kwargs ← Py.getitem info "function" ≫= Py.contains "kwargs";
        tags ← (if has_kwargs : bool then
                  kwargs ← Py.getitem info "function" ≫= (fun f => Py.getitem f "kwargs");
                  mret (<["kwargs" := kwargs]> tags)
                else mret tags);
        name ← Py.getitem info "function" ≫= (fun f => Py.getitem f "name");
        let tags := <["name" := name]> tags in
        mret tags
      else
        mret tags.

(** *** The branch rule in the words of the specification

    The branch of an [info] mapping, by fixed priority [db], [request],
    [function], with the fields the branch must supply; a key counts when
    its value is true in Python's sense.  [None] when no branch applies. *)
Definition selected_branch (info : gmap string pyval)
  : option (pyval * list string) :=
  let value k := default PNone (info !! k) in
  if Py.truthy (value "db") then
    Some (value "db", ["statement"; "params"])
  else if Py.truthy (value "request") then
    Some (value "request", ["path"; "query"; "method"; "scheme"])
  else if Py.truthy (value "function") then
    Some (value "function", ["name"])
  else None.

(** The first of [fields] that the mapping [d] lacks. *)
Fixpoint first_missing (d : gmap string pyval) (fields : list string)
  : option string :=
  match fields with
  | [] => None
  | k :: rest =>
      match d !! k with
      | Some _ => first_missing d rest
      | None => Some k
      end
  end.

End TagBuilder.

(** ** The tracing collaborator, as far as the driver consumes it *)

(** [trace.SpanContext]: the identifiers of a span.  The identifiers of a
    remote parent are the values the payload carries. *)
Record SpanContext : Type := mkSpanContext {
  trace_id : pyval;
  span_id : pyval;
  is_remote : bool;
  sampled : bool
}.

(** The largest identifiers, [2 ** 128 - 1] and [2 ** 64 - 1]. *)
Definition _TRACE_ID_MAX_VALUE : Z := (2 ^ 128 - 1)%Z.
Definition _SPAN_ID_MAX_VALUE : Z := (2 ^ 64 - 1)%Z.

(** [SpanContext.is_valid]: both identifiers are integers in range. *)
Definition span_context_is_valid (ctx : SpanContext) : bool :=
  match Py.int_value (trace_id ctx), Py.int_value (span_id ctx) with
  | Some t, Some s =>
      ((0 <? t) && (t <=? _TRACE_ID_MAX_VALUE)
       && (0 <? s) && (s <=? _SPAN_ID_MAX_VALUE))%Z
  | _, _ => false
  end.

(** [trace.SpanContext(trace_id=..., span_id=..., is_remote=...,
    trace_flags=...)].  The constructor evaluates
    [0 < trace_id <= max and 0 < span_id <= max] to fill [is_valid]: the
    first comparison raises [TypeError] unless [trace_id] is an integer,
    and so does the third unless [span_id] is one, when the first two hold
    and it is reached. *)
Definition SpanContext_new (trace_id span_id : pyval)
    (is_remote sampled : bool) : result SpanContext :=
  let ctx := {| trace_id := trace_id; span_id := span_id;
                is_remote := is_remote; sampled := sampled |} in
  match Py.int_value trace_id with
  | None => Raise TypeError
  | Some t =>
      if ((0 <? t) && (t <=? _TRACE_ID_MAX_VALUE))%Z then
        match Py.int_value span_id with
        | None => Raise TypeError
        | Some _ => Ok ctx
        end
      else Ok ctx
  end.

(** The types of attribute values: [bool], [int] and [str]. *)
Inductive attr_type : Type := TBool | TInt | TStr.

Definition attr_type_eqb (t1 t2 : attr_type) : bool :=
  match t1, t2 with
  | TBool, TBool | TInt, TInt | TStr, TStr => true
  | _, _ => false
  end.

Definition attr_type_of (v : pyval) : option attr_type :=
  match v with
  | PBool _ => Some TBool
  | PInt _ => Some TInt
  | PStr _ => Some TStr
  | _ => None
  end.

(** The loop of [_clean_attribute] over a sequence: [None] elements pass,
    any other element must have the type of the first element that is not
    [None]; otherwise the whole value is rejected. *)
Fixpoint clean_sequence (first : option attr_type) (l : list pyval)
  : option (list pyval) :=
  match l with
  | [] => Some []
  | PNone :: rest => cons PNone <$> clean_sequence first rest
  | x :: rest =>
      match attr_type_of x, first with
      | None, _ => None
      | Some t, None => cons x <$> clean_sequence (Some t) rest
      | Some t, Some t0 =>
          if attr_type_eqb t t0 then cons x <$> clean_sequence first rest
          else None
      end
  end.

(** [_clean_attribute(key, value, None)]: what a span keeps of an attribute,
    [None] when it drops it.  The key must be a non-empty string; the value
    a [bool], [int] or [str], or a sequence of these of one type. *)
Definition clean_attribute (key : string) (value : pyval) : option pyval :=
  if String.eqb key "" then None
  else match value with
       | PBool _ | PInt _ | PStr _ => Some value
       | PList l => PList <$> clean_sequence None l
       | PNone | PDict _ => None
       end.

(** A span of the tracer: its name, the context of its parent ([None] for
    the root of a trace), the attributes it holds and its own context. *)
Record Span : Type := mkSpan {
  span_name : string;
  span_parent : option SpanContext;
  span_attributes : gmap string pyval;
  span_context : SpanContext
}.

(** The context manager returned by [trace.use_span(span, end_on_exit=True)],
    the only way the driver calls it.  [act_token] is what entering it
    saved: the span that was current before, restored on exit. *)
Record Activation : Type := mkActivation {
  act_span : Span;
  act_token : option Span
}.

(** ** The driver *)

(** The state of one driver instance together with the tracer it owns:
    - [spans]: the deque [self.spans], rightmost element last;
    - [started], [ended]: the spans the tracer has opened and closed so far,
      oldest first;
    - [current]: the span that is current in the ambient tracing context. *)
Record Jaeger : Type := mkJaeger {
  spans : list Activation;
  started : list Span;
  ended : list Span;
  current : option Span
}.

(** The driver right after [__init__]: [self.spans = collections.deque()]
    and a tracer that has not opened any span. *)
Definition init : Jaeger :=
  {| spans := []; started := []; ended := []; current := None |}.

(** Computations of a method body: a result and the state left behind. *)
Definition M (A : Type) : Type := Jaeger -> result A * Jaeger.

#[global] Instance M_ret : MRet M := fun A a st => (Ok a, st).
#[global] Instance M_bind : MBind M := fun A B f m st =>
  match m st with
  | (Ok a, st') => f a st'
  | (Raise e, st') => (Raise e, st')
  end.

(** A computation that only reads its arguments. *)
Definition lift {A} (r : result A) : M A := fun st => (r, st).

Section Driver.

(** [datetime.datetime.strptime(s, "%Y-%m-%dT%H:%M:%S.%f")]: the parsed
    instant in microseconds since 1970-01-01T00:00:00, or [None] where
    Python raises [ValueError]. *)
Variable strptime : string -> option Z.

Variable dumps : pyval -> string.

(** The identifiers the tracer gives to the [n]-th span it opens under the
    given parent. *)
Variable new_span_context : nat -> option SpanContext -> SpanContext.

(** [datetime.datetime.strptime(v, fmt)] on a payload value. *)
Definition datetime_strptime (v : pyval) : result Z :=
  match v with
  | PStr s =>
      match strptime s with
      | Some t => Ok t
      | None => Raise ValueError
      end
  | _ => Raise TypeError
  end.

(** [datetime.datetime.utcfromtimestamp(secs)] *)
Definition utcfromtimestamp (secs : Z) : Z := (secs * 1000000)%Z.

(** [timedelta.total_seconds()]: the quotient that Python rounds to a
    float, kept exact. *)
Definition total_seconds (delta : Z) : QArith_base.Q :=
  QArith_base.Qmake delta 1000000.

(** [tracer.start_span(name=..., context=..., attributes=...)], where
    [context] holds the span put there by [set_span_in_context]: [None], or
    the [NonRecordingSpan] around a parent context.  A parent context that
    is not valid is forgotten and the span is the root of a new trace; the
    attributes are cleaned one by one. *)
Definition start_span (name : string) (context : option SpanContext)
    (attributes : gmap string pyval) : M Span := fun st =>
  let parent_span_context :=
    match context with
    | Some ctx => if span_context_is_valid ctx then Some ctx else None
    | None => None
    end in
  let span := {| span_name := name;
                 span_parent := parent_span_context;
                 span_attributes := map_imap clean_attribute attributes;
                 span_context :=
                   new_span_context (length (started st))
                     parent_span_context |} in
  (Ok span, {| spans := spans st;
               started := started st ++ [span];
               ended := ended st;
               current := current st |}).

(** [span.end()] *)
Definition span_end (span : Span) : M unit := fun st =>
  (Ok tt, {| spans := spans st;
             started := started st;
             ended := ended st ++ [span];
             current := current st |}).

(** [activation = trace.use_span(span, end_on_exit=True)] followed by
    [activation.__enter__()]: the span becomes the current one and the
    activation remembers the one it displaced. *)
Definition use_span_enter (span : Span) : M Activation := fun st =>
  (Ok {| act_span := span; act_token := current st |},
   {| spans := spans st;
      started := started st;
      ended := ended st;
      current := Some span |}).

(** [activation.__exit__(None, None, None)]: the displaced span is current
    again and, as [end_on_exit] is set, the span is ended. *)
Definition activation_exit (activation : Activation) : M unit :=
  (fun st => (Ok tt, {| spans := spans st;
                        started := started st;
                        ended := ended st;
                        current := act_token activation |})) ;;
  span_end (act_span activation).

(** [self.spans.append(activation)] *)
Definition spans_append (activation : Activation) : M unit := fun st =>
  (Ok tt, {| spans := Py.deque_append (spans st) activation;
             started := started st;
             ended := ended st;
             current := current st |}).

(** [self.spans.pop()] *)
Definition spans_pop : M Activation := fun st =>
  match Py.deque_pop (spans st) with
  | Ok (activation, rest) =>
      (Ok activation, {| spans := rest;
                         started := started st;
                         ended := ended st;
                         current := current st |})
  | Raise e => (Raise e, st)
  end.

(** [Jaeger.notify(payload)]: a list of identifiers for a start event,
    [None] for any other event. *)
Definition notify (payload : gmap string pyval) : M pyval :=
  is_start ← lift (Py.subscript payload "name" ≫= (fun n => Py.str_endswith n "start"));
  if is_start : bool then
    timestamp ← lift (Py.subscript payload "timestamp" ≫= datetime_strptime);
    let epoch := utcfromtimestamp 0 in
    let start_time := total_seconds (timestamp - epoch) in
    parent_id ← lift (Py.subscript payload "parent_id");
    parent_span ←
      (if Py.is_not_none parent_id then
         trace_id ← lift (Py.subscript payload "base_id");
         span_id ← lift (Py.subscript payload "parent_id");
         parent_context ← lift (SpanContext_new trace_id span_id true true);
         mret (Some parent_context)
       else mret None);
    let ctx := parent_span in
    (* Create Jaeger Tracing span *)
    name ← lift (Py.subscript payload "name" ≫= (fun n => Py.str_rstrip n "-start"));
    attributes ← lift (create_span_tags dumps payload);
    span ← start_span name ctx attributes;
    activation ← use_span_enter span;
    spans_append activation;;
    let current_span_id := span_id (span_context span) in
    match parent_span with
    | None =>
        (* return trace id and span id *)
        let trace_id := trace_id (span_context span) in
        mret (PList [trace_id; current_span_id])
    | Some _ => mret (PList [current_span_id])
    end
  else
    activation ← spans_pop;
    activation_exit activation;;
    mret PNone.

(** The instrumentation delivering a sequence of notifications to one
    driver instance; it stops at the first call that raises. *)
Fixpoint notify_all (payloads : list (gmap string pyval)) : M unit :=
  match payloads with
  | [] => mret tt
  | payload :: rest => notify payload ;; notify_all rest
  end.

(** *** Well-formed traffic

    The notifications the profiler is expected to send.  A start is
    acceptable when [notify] finds in it all it reads: a name ending in
    [start], a timestamp that parses, a [parent_id] entry (when it is not
    [None], with a [base_id] entry such that the two make a span context)
    and an [info] the tag builder accepts.  A stop only needs a name that
    does not end in [start]. *)
Definition start_ok (payload : gmap string pyval) : bool :=
  match payload !! "name", payload !! "timestamp", payload !! "parent_id" with
  | Some (PStr n), Some (PStr ts), Some parent_id =>
      Py.endswith n "start"
      && bool_decide (is_Some (strptime ts))
      && (negb (Py.is_not_none parent_id)
          || match payload !! "base_id" with
             | Some base_id =>
                 is_ok (SpanContext_new base_id parent_id true true)
             | None => false
             end)
      && is_ok (create_span_tags dumps payload)
  | _, _, _ => false
  end.

Definition stop_ok (payload : gmap string pyval) : bool :=
  match payload !! "name" with
  | Some (PStr n) => negb (Py.endswith n "start")
  | _ => false
  end.

(** Well-nested sequences: every start is closed by a later stop, in
    last-in-first-out order. *)
Inductive well_nested : list (gmap string pyval) -> Prop :=
| wn_nil : well_nested []
| wn_wrap start body stop :
    start_ok start = true -> stop_ok stop = true -> well_nested body ->
    well_nested (start :: body ++ [stop])
| wn_app l1 l2 :
    well_nested l1 -> well_nested l2 -> well_nested (l1 ++ l2).

(** The nesting depth after a sequence that starts at depth [d]; [None]
    when a stop comes at depth 0 or a notification is not acceptable. *)
Fixpoint depth_after (d : nat) (payloads : list (gmap string pyval))
  : option nat :=
  match payloads with
  | [] => Some d
  | p :: rest =>
      if start_ok p then depth_after (S d) rest
      else if stop_ok p then
        match d with
        | O => None
        | S d' => depth_after d' rest
        end
      else None
  end.

End Driver.

(** ** Fixtures for the examples

    Concrete stand-ins for the three collaborators, used where a statement
    is evaluated on a concrete notification. *)

Module Fixture.

(** A serializer that renders the outermost constructor only. *)
Definition sample_dumps (v : pyval) : string :=
  match v with
  | PNone => "null"
  | PBool true => "true"
  | PBool false => "false"
  | PInt _ => "<int>"
  | PStr s => s
  | PList _ => "[...]"
  | PDict _ => "{...}"
  end.

(** [shape pat s]: [s] has the length of [pat], a digit wherever [pat]
    has a [d] and the character of [pat] everywhere else. *)
Fixpoint shape (pat s : string) : bool :=
  match pat, s with
  | EmptyString, EmptyString => true
  | String p pat', String c s' =>
      (if decide (p = "d"%char) then bool_decide (is_Some (Ascii.is_nat c))
       else bool_decide (p = c))
      && shape pat' s'
  | _, _ => false
  end.

Fixpoint number (acc : Z) (s : string) : Z :=
  match s with
  | EmptyString => acc
  | String c s' => number (10 * acc + Z.of_nat (default 0%nat (Ascii.is_nat c))) s'
  end.

Definition field (start len : nat) (s : string) : Z :=
  number 0 (String.substring start len s).

(** Days from 1970-01-01 to the given date of the proleptic Gregorian
    calendar. *)
Definition days_from_civil (y m d : Z) : Z :=
  let y := (if m <=? 2 then y - 1 else y)%Z in
  let era := (y / 400)%Z in
  let yoe := (y - era * 400)%Z in
  let doy := ((153 * (if m >? 2 then m - 3 else m + 9) + 2) / 5 + d - 1)%Z in
  let doe := (yoe * 365 + yoe / 4 - yoe / 100 + doy)%Z in
  (era * 146097 + doe - 719468)%Z.

(** A parser for the fixed-width timestamps the profiler emits, such as
    [2018-01-01T00:00:00.000000]; it accepts a subset of what Python's
    [strptime] accepts for the driver's format. *)
Definition sample_strptime (s : string) : option Z :=
  if shape "dddd-dd-ddTdd:dd:dd.dddddd" s then
    let y := field 0 4 s in
    let m := field 5 2 s in
    let d := field 8 2 s in
    let hh := field 11 2 s in
    let mm := field 14 2 s in
    let ss := field 17 2 s in
    let us := field 20 6 s in
    if ((1 <=? y) && (1 <=? m) && (m <=? 12) && (1 <=? d) && (d <=? 28)
        && (hh <=? 23) && (mm <=? 59) && (ss <=? 59))%Z
    then Some ((((days_from_civil y m d * 24 + hh) * 60 + mm) * 60 + ss)
               * 1000000 + us)%Z
    else None
  else None.

(** A tracer that numbers its spans from 1 and opens a trace of its own
    for a span without parent. *)
Definition sample_context (n : nat) (parent : option SpanContext)
  : SpanContext :=
  {| trace_id := match parent with
                 | Some p => trace_id p
                 | None => PInt (1000 + Z.of_nat n)
                 end;
     span_id := PInt (1 + Z.of_nat n);
     is_remote := false;
     sampled := true |}.

Definition run_notify := notify sample_strptime sample_dumps sample_context.
Definition run_notify_all :=
  notify_all sample_strptime sample_dumps sample_context.

(** Sample notifications. *)
Definition wsgi_info : pyval :=
  PDict {[ "request" := PDict {[ "path" := PStr "/x"; "query" := PStr "q=1";
                                 "method" := PStr "GET"; "scheme" := PStr "http" ]} ]}.

Definition root_start : gmap string pyval :=
  {[ "name" := PStr "wsgi-start";
     "timestamp" := PStr "2018-01-01T00:00:00.000000";
     "base_id" := PInt 77; "parent_id" := PNone;
     "info" := wsgi_info ]}.

Definition child_start : gmap string pyval :=
  {[ "name" := PStr "driver-start";
     "timestamp" := PStr "2018-01-01T00:00:01.500000";
     "base_id" := PInt 1000; "parent_id" := PInt 1;
     "info" := PDict {[ "function" := PDict {[ "name" := PStr "foo";
                                               "args" := PList [PInt 1; PInt 2] ]} ]} ]}.

Definition bad_time_start : gmap string pyval :=
  <[ "timestamp" := PStr "yesterday" ]> root_start.

Definition wsgi_stop : gmap string pyval :=
  {[ "name" := PStr "wsgi-stop";
     "timestamp" := PStr "2018-01-01T00:00:02.000000";
     "base_id" := PInt 77; "parent_id" := PNone;
     "info" := PDict ∅ ]}.

Definition driver_stop : gmap string pyval :=
  <[ "name" := PStr "driver-stop" ]> wsgi_stop.


Definition request : pyval :=
  PDict {[ "path" := PStr "/x"; "query" := PStr "q=1";
           "method" := PStr "GET"; "scheme" := PStr "http" ]}.

(** An [info] with both keys and a usable [db] entry. *)
Definition db_and_request : gmap string pyval :=
  {[ "db" := PDict {[ "statement" := PStr "SELECT 1";
                      "params" := PDict {[ "a" := PInt 1 ]} ]};
     "request" := request ]}.

(** An [info] with both keys whose [db] entry is an empty mapping. *)
Definition empty_db_and_request : gmap string pyval :=
  {[ "db" := PDict ∅; "request" := request ]}.

(** An [info] whose function entry has arguments but no name. *)
Definition nameless_function : gmap string pyval :=
  {[ "function" := PDict {[ "args" := PList [PInt 1; PInt 2] ]} ]}.

Definition function_foo : gmap string pyval :=
  {[ "name" := PStr "foo"; "args" := PList [PInt 1; PInt 2] ]}.

End Fixture.

(** ** Bookkeeping of a driver instance

    [accounted st]: the open activations are exactly what was opened and
    not yet closed, by count, and the driver holds or has closed only spans
    that its tracer opened. *)
Definition accounted (st : Jaeger) : Prop :=
  length (spans st) + length (ended st) = length (started st)
  /\ (forall a, a ∈ spans st -> act_span a ∈ started st)
  /\ (forall span, span ∈ ended st -> span ∈ started st).

(** Further sample notifications. *)
Module Scenario.

(** A start whose function entry lacks the name. *)
Definition nameless_start : gmap string pyval :=
  <[ "info" := PDict Fixture.nameless_function ]> Fixture.child_start.

(** A start without a [parent_id] entry. *)
Definition orphan_start : gmap string pyval :=
  delete "parent_id" Fixture.root_start.

(** A notification without a name. *)
Definition anonymous : gmap string pyval :=
  delete "name" Fixture.root_start.

(** A start whose [db] entry is [None], next to a request. *)
Definition null_db_start : gmap string pyval :=
  <[ "info" := PDict {[ "db" := PNone; "request" := Fixture.request ]} ]>
    Fixture.root_start.

(** A start without [info]. *)
Definition bare_start : gmap string pyval :=
  delete "info" Fixture.root_start.


End Scenario.

(** * Properties *)

(** ** Python primitives *)


Lemma deque_pop_append {A} (d : list A) (a : A) :
  Py.deque_pop (Py.deque_append d a) = Ok (a, d).
Proof.
  unfold Py.deque_pop, Py.deque_append.
  rewrite rev_app_distr. simpl. by rewrite rev_involutive.
Qed.

Lemma deque_pop_empty {A} : Py.deque_pop (@nil A) = Raise IndexError.
Proof. reflexivity. Qed.

Lemma truthy_dict_lookup (d : gmap string pyval) k v :
  d !! k = Some v -> Py.truthy (PDict d) = true.
Proof.
  intros Hk. simpl. apply negb_true_iff, Nat.eqb_neq.
  intros Hsize. apply map_size_empty_iff in Hsize. subst d.
  by rewrite lookup_empty in Hk.
Qed.

(** ** The tag builder *)

Section TagFacts.

Variable dumps : pyval -> string.
Implicit Types (payload info d : gmap string pyval) (v : pyval).

Abbreviation value info k := (default PNone (info !! k)).

(** The body of [create_span_tags], one branch at a time. *)

Lemma tags_db payload info :
  payload !! "info" = Some (PDict info) ->
  Py.truthy (value info "db") = true ->
  create_span_tags dumps payload =
    (statement ← Py.getitem (value info "db") "statement";
     params ← Py.getitem (value info "db") "params";
     mret (<["db.params" := PStr (dumps params)]>
             (<["db.statement" := statement]> ∅))).
Proof.
  intros Hinfo Hdb. unfold create_span_tags, Py.subscript.
  rewrite Hinfo. simpl. rewrite Hdb. unfold Py.subscript.
  destruct (info !! "db") as [v|] eqn:Hv; [|done]. simpl.
  by destruct (Py.getitem v "statement").
Qed.

Lemma tags_request payload info :
  payload !! "info" = Some (PDict info) ->
  Py.truthy (value info "db") = false ->
  Py.truthy (value info "request") = true ->
  create_span_tags dumps payload =
    (path ← Py.getitem (value info "request") "path";
     query ← Py.getitem (value info "request") "query";
     method ← Py.getitem (value info "request") "method";
     scheme ← Py.getitem (value info "request") "scheme";
     mret (<["http.scheme" := scheme]> (<["http.method" := method]>
             (<["http.query" := query]> (<["http.path" := path]> ∅))))).
Proof.
  intros Hinfo Hdb Hreq. unfold create_span_tags, Py.subscript.
  rewrite Hinfo. simpl. rewrite Hdb. simpl. rewrite Hreq. unfold Py.subscript.
  destruct (info !! "request") as [v|] eqn:Hv; [|done]. simpl.
  destruct (Py.getitem v "path"); simpl; [|done].
  destruct (Py.getitem v "query"); simpl; [|done].
  by destruct (Py.getitem v "method").
Qed.

Lemma tags_function payload info :
  payload !! "info" = Some (PDict info) ->
  Py.truthy (value info "db") = false ->
  Py.truthy (value info "request") = false ->
  Py.truthy (value info "function") = true ->
  create_span_tags dumps payload =
    (has_args ← Py.contains "args" (value info "function");
     tags ← (if has_args : bool then
               args ← Py.getitem (value info "function") "args";
               mret (<["args" := args]> ∅)
             else mret ∅);
     has_kwargs ← Py.contains "kwargs" (value info "function");
     tags ← (if has_kwargs : bool then
               kwargs ← Py.getitem (value info "function") "kwargs";
               mret (<["kwargs" := kwargs]> tags)
             else mret tags);
     name ← Py.getitem (value info "function") "name";
     mret (<["name" := name]> tags)).
Proof.
  intros Hinfo Hdb Hreq Hfun. unfold create_span_tags, Py.subscript.
  rewrite Hinfo. simpl. rewrite Hdb. simpl. rewrite Hreq. simpl.
  rewrite Hfun. unfold Py.subscript.
  destruct (info !! "function") as [v|] eqn:Hv; [|done]. simpl.
  destruct (Py.contains "args" v) as [[]|]; simpl; [| |done].
  - destruct (Py.getitem v "args"); simpl; [|done].
    destruct (Py.contains "kwargs" v) as [[]|]; simpl; [| |done].
    + destruct (Py.getitem v "kwargs"); simpl; [|done].
      by destruct (Py.getitem v "name").
    + by destruct (Py.getitem v "name").
  - destruct (Py.contains "kwargs" v) as [[]|]; simpl; [| |done].
    + destruct (Py.getitem v "kwargs"); simpl; [|done].
      by destruct (Py.getitem v "name").
    + by destruct (Py.getitem v "name").
Qed.

Lemma tags_none payload info :
  payload !! "info" = Some (PDict info) ->
  Py.truthy (value info "db") = false ->
  Py.truthy (value info "request") = false ->
  Py.truthy (value info "function") = false ->
  create_span_tags dumps payload = Ok ∅.
Proof.
  intros Hinfo Hdb Hreq Hfun. unfold create_span_tags, Py.subscript.
  rewrite Hinfo. simpl. rewrite Hdb. simpl. rewrite Hreq. simpl.
  by rewrite Hfun.
Qed.

(** What the function branch builds from a mapping [f] that has a name. *)
Lemma function_tags f name :
  f !! "name" = Some name ->
  exists tags : gmap string pyval,
    (has_args ← Py.contains "args" (PDict f);
     tags ← (if has_args : bool then
               args ← Py.getitem (PDict f) "args";
               mret (<["args" := args]> ∅)
             else mret ∅);
     has_kwargs ← Py.contains "kwargs" (PDict f);
     tags ← (if has_kwargs : bool then
               kwargs ← Py.getitem (PDict f) "kwargs";
               mret (<["kwargs" := kwargs]> tags)
             else mret tags);
     name ← Py.getitem (PDict f) "name";
     mret (<["name" := name]> tags)) = Ok tags
    /\ forall k, tags !! k =
         if decide (k = "name" \/ k = "args" \/ k = "kwargs")
         then f !! k else None.
Proof.
  intros Hname. simpl. unfold Py.subscript. rewrite Hname.
  destruct (f !! "args") as [a|] eqn:Ha;
    destruct (f !! "kwargs") as [kw|] eqn:Hkw;
    repeat (first [rewrite bool_decide_eq_true_2 by eauto
                  |rewrite bool_decide_eq_false_2 by (by intros [? ?])]);
    simpl; eexists; (split; [reflexivity|]); intros k;
    rewrite ?lookup_insert, ?lookup_empty;
    repeat destruct (decide _); subst; try done;
    try (exfalso; intuition congruence); intuition congruence.
Qed.

(** C8. For [info = {"db": {"statement": "SELECT 1", "params": {"a": 1}}}]
    the tag builder returns exactly two tags: [db.statement] with the raw
    statement text and [db.params] with the serialized parameter mapping;
    no [http.*] key and none of the function keys is present. *)
Theorem create_span_tags_db_example :
  let params := PDict {[ "a" := PInt 1 ]} in
  let info := PDict {[ "db" := PDict {[ "statement" := PStr "SELECT 1";
                                        "params" := params ]} ]} in
  exists tags : gmap string pyval,
    create_span_tags dumps {[ "info" := info ]} = Ok tags
    /\ tags = {[ "db.statement" := PStr "SELECT 1";
                 "db.params" := PStr (dumps params) ]}
    /\ dom tags = {[ "db.statement"; "db.params" ]}.
Proof.
  intros params info. eexists. split; [reflexivity|].
  split; reflexivity.
Qed.

(** C9. For [info = {"function": {"name": "foo", "args": [1,2]}}] the tag
    builder returns exactly [{"name": "foo", "args": [1,2]}], without a
    [kwargs] key.  In general the function branch copies [name], and copies
    [args] and [kwargs] exactly when the payload has them: the tags agree
    with the function mapping on these three keys and have no other key. *)
Theorem create_span_tags_function_branch :
  (exists tags : gmap string pyval,
     create_span_tags dumps
       {[ "info" := PDict {[ "function" :=
            PDict {[ "name" := PStr "foo";
                     "args" := PList [PInt 1; PInt 2] ]} ]} ]} = Ok tags
     /\ tags = {[ "name" := PStr "foo"; "args" := PList [PInt 1; PInt 2] ]}
     /\ tags !! "kwargs" = None)
  /\ (forall payload info f name,
        payload !! "info" = Some (PDict info) ->
        Py.truthy (value info "db") = false ->
        Py.truthy (value info "request") = false ->
        info !! "function" = Some (PDict f) ->
        f !! "name" = Some name ->
        exists tags : gmap string pyval,
          create_span_tags dumps payload = Ok tags
          /\ forall k, tags !! k =
                if decide (k = "name" \/ k = "args" \/ k = "kwargs")
                then f !! k else None).
Proof.
  split.
  - eexists. split; [reflexivity|]. split; reflexivity.
  - intros payload info f name Hinfo Hdb Hreq Hfun Hname.
    rewrite (tags_function payload info) by
      (rewrite ?Hfun; eauto using truthy_dict_lookup).
    rewrite Hfun. apply (function_tags f name Hname).
Qed.

(** C2 (amended). The tag builder picks its branch by fixed priority on the
    truth value of the entries of [info]: a [db] mapping that carries a
    statement and parameters yields the two [db.*] tags and nothing else,
    whatever [request] and [function] hold; with a false [db] entry a
    [request] mapping with its four fields yields the four [http.*] tags;
    with false [db] and [request] entries a [function] mapping with a name
    yields tags among [name], [args], [kwargs]; with all three false (for
    instance absent) the result is the empty mapping, without error. *)
Theorem create_span_tags_priority payload info :
  payload !! "info" = Some (PDict info) ->
  (forall d statement params,
     info !! "db" = Some (PDict d) ->
     d !! "statement" = Some statement ->
     d !! "params" = Some params ->
     create_span_tags dumps payload =
       Ok {[ "db.statement" := statement;
             "db.params" := PStr (dumps params) ]})
  /\ (Py.truthy (value info "db") = false ->
      forall r path query method scheme,
        info !! "request" = Some (PDict r) ->
        r !! "path" = Some path -> r !! "query" = Some query ->
        r !! "method" = Some method -> r !! "scheme" = Some scheme ->
        create_span_tags dumps payload =
          Ok {[ "http.path" := path; "http.query" := query;
                "http.method" := method; "http.scheme" := scheme ]})
  /\ (Py.truthy (value info "db") = false ->
      Py.truthy (value info "request") = false ->
      forall f name,
        info !! "function" = Some (PDict f) ->
        f !! "name" = Some name ->
        exists tags : gmap string pyval,
          create_span_tags dumps payload = Ok tags
          /\ tags !! "name" = Some name
          /\ dom tags ⊆ {[ "name"; "args"; "kwargs" ]})
  /\ (Py.truthy (value info "db") = false ->
      Py.truthy (value info "request") = false ->
      Py.truthy (value info "function") = false ->
      create_span_tags dumps payload = Ok ∅).
Proof.
  intros Hinfo. repeat split.
  - intros d statement params Hdb Hs Hp.
    rewrite (tags_db payload info) by
      (rewrite ?Hdb; eauto using truthy_dict_lookup).
    rewrite Hdb. simpl. unfold Py.subscript. rewrite Hs, Hp. simpl.
    reflexivity.
  - intros Hdb r path query method scheme Hreq Hpa Hq Hm Hsc.
    rewrite (tags_request payload info) by
      (rewrite ?Hreq; eauto using truthy_dict_lookup).
    rewrite Hreq. simpl. unfold Py.subscript. rewrite Hpa, Hq, Hm, Hsc. simpl.
    reflexivity.
  - intros Hdb Hreq f name Hfun Hname.
    rewrite (tags_function payload info) by
      (rewrite ?Hfun; eauto using truthy_dict_lookup).
    rewrite Hfun. change (default PNone (Some (PDict f))) with (PDict f).
    destruct (function_tags f name Hname) as (tags & -> & Htags).
    exists tags. split; [done|]. split.
    + rewrite Htags. by rewrite decide_True by auto.
    + intros k [x Hk]%elem_of_dom. rewrite Htags in Hk.
      destruct (decide _) as [Hor|]; [|done].
      rewrite !elem_of_union, !elem_of_singleton. tauto.
  - intros Hdb Hreq Hfun. by apply (tags_none payload info).
Qed.

(** C5 (amended). The tag builder is not total.  For every [info] mapping
    it returns the empty mapping when no branch is selected; when the
    selected branch holds a mapping it returns a tag mapping if all fields
    the branch requires are there and otherwise raises [KeyError] naming the
    first missing one; when the selected branch holds a value that is not a
    mapping it raises [TypeError].  It has no access to the driver's state. *)
Theorem create_span_tags_outcome payload info :
  payload !! "info" = Some (PDict info) ->
  match selected_branch info with
  | None => create_span_tags dumps payload = Ok ∅
  | Some (PDict d, fields) =>
      match first_missing d fields with
      | None => exists tags, create_span_tags dumps payload = Ok tags
      | Some k => create_span_tags dumps payload = Raise (KeyError k)
      end
  | Some (_, _) => create_span_tags dumps payload = Raise TypeError
  end.
Proof.
  intros Hinfo. unfold selected_branch.
  destruct (Py.truthy (value info "db")) eqn:Hdb.
  { rewrite (tags_db payload info) by done.
    destruct (value info "db") as [| | | | |d]; try done.
    simpl. unfold Py.subscript.
    destruct (d !! "statement"); [|done].
    destruct (d !! "params"); [|done]. simpl. eauto. }
  destruct (Py.truthy (value info "request")) eqn:Hreq.
  { rewrite (tags_request payload info) by done.
    destruct (value info "request") as [| | | | |d]; try done.
    simpl. unfold Py.subscript.
    destruct (d !! "path"); [|done].
    destruct (d !! "query"); [|done].
    destruct (d !! "method"); [|done].
    destruct (d !! "scheme"); [|done]. simpl. eauto. }
  destruct (Py.truthy (value info "function")) eqn:Hfun.
  { rewrite (tags_function payload info) by done.
    destruct (value info "function") as [|b|z|s|l|d]; try done.
    - simpl. by destruct (Py.str_contains "args" s), (Py.str_contains "kwargs" s).
    - simpl. by repeat destruct (existsb _ l).
    - cbn [first_missing].
      destruct (d !! "name") as [name|] eqn:Hname.
      + destruct (function_tags d name Hname) as (tags & -> & _). eauto.
      + simpl. unfold Py.subscript.
        destruct (d !! "args") as [a|] eqn:Ha;
          destruct (d !! "kwargs") as [kw|] eqn:Hkw;
          repeat (first [rewrite bool_decide_eq_true_2 by eauto
                        |rewrite bool_decide_eq_false_2 by (by intros [? ?])]);
          simpl; by rewrite ?Hname. }
  by apply (tags_none payload info).
Qed.

End TagFacts.

(** ** The span lifecycle: [Jaeger.notify] *)

Section DriverFacts.

Variable strptime : string -> option Z.
Variable dumps : pyval -> string.
Variable new_span_context : nat -> option SpanContext -> SpanContext.

Implicit Types (payload : gmap string pyval) (st : Jaeger).

Abbreviation notify' := (notify strptime dumps new_span_context).
Abbreviation notify_all' := (notify_all strptime dumps new_span_context).
Abbreviation start_ok' := (start_ok strptime dumps).
Abbreviation well_nested' := (well_nested strptime dumps).
Abbreviation depth_after' := (depth_after strptime dumps).

(** Unfolds the monadic plumbing of a method body. *)
Ltac run_body :=
  unfold notify, spans_pop, activation_exit, span_end, spans_append,
    use_span_enter, start_span, lift, mbind, M_bind, mret, M_ret; simpl.

(** When the constructor returns, it returns the context of its arguments. *)
Lemma SpanContext_new_ok trace span remote flag :
  is_ok (SpanContext_new trace span remote flag) = true ->
  SpanContext_new trace span remote flag
  = Ok (mkSpanContext trace span remote flag).
Proof.
  unfold SpanContext_new.
  destruct (Py.int_value trace) as [t|]; [|done].
  destruct ((0 <? t)%Z && (t <=? _TRACE_ID_MAX_VALUE)%Z); [|done].
  by destruct (Py.int_value span).
Qed.

(** It raises nothing but [TypeError]. *)
Lemma SpanContext_new_raise trace span remote flag e :
  SpanContext_new trace span remote flag = Raise e -> e = TypeError.
Proof.
  unfold SpanContext_new.
  destruct (Py.int_value trace) as [t|]; [|by intros [= <-]].
  destruct ((0 <? t)%Z && (t <=? _TRACE_ID_MAX_VALUE)%Z); [|done].
  destruct (Py.int_value span); [done|by intros [= <-]].
Qed.

(** A start without parent: the span is a trace root. *)
Lemma notify_start_root payload st n ts t tags :
  payload !! "name" = Some (PStr n) ->
  Py.endswith n "start" = true ->
  payload !! "timestamp" = Some (PStr ts) ->
  strptime ts = Some t ->
  payload !! "parent_id" = Some PNone ->
  create_span_tags dumps payload = Ok tags ->
  let span := mkSpan (Py.rstrip n "-start") None
                (map_imap clean_attribute tags)
                (new_span_context (length (started st)) None) in
  notify' payload st =
    (Ok (PList [trace_id (span_context span); span_id (span_context span)]),
     mkJaeger (spans st ++ [mkActivation span (current st)])
       (started st ++ [span]) (ended st) (Some span)).
Proof.
  intros Hn He Hts Ht Hp Htags. run_body. unfold Py.subscript.
  rewrite Hn. simpl. rewrite He, Hts. simpl. rewrite Ht, Hp. simpl.
  by rewrite Htags.
Qed.

(** A start under a remote parent. *)
Lemma notify_start_child payload st n ts t parent_id base_id tags :
  payload !! "name" = Some (PStr n) ->
  Py.endswith n "start" = true ->
  payload !! "timestamp" = Some (PStr ts) ->
  strptime ts = Some t ->
  payload !! "parent_id" = Some parent_id ->
  Py.is_not_none parent_id = true ->
  payload !! "base_id" = Some base_id ->
  is_ok (SpanContext_new base_id parent_id true true) = true ->
  create_span_tags dumps payload = Ok tags ->
  let ctx := mkSpanContext base_id parent_id true true in
  let parent := if span_context_is_valid ctx then Some ctx else None in
  let span := mkSpan (Py.rstrip n "-start") parent
                (map_imap clean_attribute tags)
                (new_span_context (length (started st)) parent) in
  notify' payload st =
    (Ok (PList [span_id (span_context span)]),
     mkJaeger (spans st ++ [mkActivation span (current st)])
       (started st ++ [span]) (ended st) (Some span)).
Proof.
  intros Hn He Hts Ht Hp Hnn Hb Hctx%SpanContext_new_ok Htags.
  run_body. unfold Py.subscript.
  rewrite Hn. simpl. rewrite He, Hts. simpl. rewrite Ht, Hp. simpl.
  rewrite Hnn, Hb. simpl. rewrite Hctx. simpl. rewrite Htags. simpl.
  by destruct (span_context_is_valid _).
Qed.

(** A stop closes the activation on top of the stack. *)
Lemma notify_stop payload st n a rest :
  payload !! "name" = Some (PStr n) ->
  Py.endswith n "start" = false ->
  spans st = rest ++ [a] ->
  notify' payload st =
    (Ok PNone,
     mkJaeger rest (started st) (ended st ++ [act_span a]) (act_token a)).
Proof.
  intros Hn He Hs. run_body. unfold Py.subscript.
  rewrite Hn. simpl. rewrite He, Hs.
  change (rest ++ [a]) with (Py.deque_append rest a).
  by rewrite deque_pop_append.
Qed.

Lemma notify_stop_empty payload st n :
  payload !! "name" = Some (PStr n) ->
  Py.endswith n "start" = false ->
  spans st = [] ->
  notify' payload st = (Raise IndexError, st).
Proof.
  intros Hn He Hs. run_body. unfold Py.subscript.
  rewrite Hn. simpl. by rewrite He, Hs.
Qed.



(** *** Sequences of notifications *)

Lemma notify_all_cons payload rest st :
  notify_all' (payload :: rest) st =
    match notify' payload st with
    | (Ok _, st') => notify_all' rest st'
    | (Raise e, st') => (Raise e, st')
    end.
Proof. reflexivity. Qed.

Lemma start_ok_step payload st :
  start_ok' payload = true ->
  exists r a span,
    notify' payload st =
      (Ok r, mkJaeger (spans st ++ [a]) (started st ++ [span])
               (ended st) (Some span)).
Proof.
  unfold start_ok. intros Hok.
  destruct (payload !! "name") as [[| | |n| |]|] eqn:Hn; try done.
  destruct (payload !! "timestamp") as [[| | |ts| |]|] eqn:Hts; try done.
  destruct (payload !! "parent_id") as [pid|] eqn:Hp; try done.
  apply andb_true_iff in Hok as [Hok Htags].
  apply andb_true_iff in Hok as [Hok Hbase].
  apply andb_true_iff in Hok as [He Ht].
  apply bool_decide_eq_true in Ht as [t Ht].
  destruct (create_span_tags dumps payload) as [tags|] eqn:Htg; [|done].
  destruct (Py.is_not_none pid) eqn:Hnn.
  - destruct (payload !! "base_id") as [base|] eqn:Hb; [|done].
    do 3 eexists. by eapply notify_start_child.
  - destruct pid; try done.
    do 3 eexists. by eapply notify_start_root.
Qed.

Lemma stop_ok_step payload st a rest :
  stop_ok payload = true ->
  spans st = rest ++ [a] ->
  notify' payload st =
    (Ok PNone,
     mkJaeger rest (started st) (ended st ++ [act_span a]) (act_token a)).
Proof.
  unfold stop_ok. intros Hok Hs.
  destruct (payload !! "name") as [[| | |n| |]|] eqn:Hn; try done.
  apply negb_true_iff in Hok. by eapply notify_stop.
Qed.

Lemma stop_ok_not_start payload :
  stop_ok payload = true -> start_ok' payload = false.
Proof.
  unfold stop_ok, start_ok.
  destruct (payload !! "name") as [[| | |n| |]|]; try done.
  intros ->%negb_true_iff.
  by destruct (payload !! "timestamp") as [[]|], (payload !! "parent_id").
Qed.

Lemma depth_after_app l1 l2 d :
  depth_after' d (l1 ++ l2)
  = depth_after' d l1 ≫= (fun d1 => depth_after' d1 l2).
Proof.
  revert d. induction l1 as [|p l1 IH]; intros d; simpl; [done|].
  destruct (start_ok' p); [by apply IH|].
  destruct (stop_ok p); [|done]. destruct d; [done|]. by apply IH.
Qed.

Lemma well_nested_depth l :
  well_nested' l -> forall d, depth_after' d l = Some d.
Proof.
  induction 1 as [|start body stop Hstart Hstop _ IH|l1 l2 _ IH1 _ IH2];
    intros d.
  - done.
  - simpl. rewrite Hstart, depth_after_app, IH. simpl.
    by rewrite (stop_ok_not_start stop), Hstop.
  - by rewrite depth_after_app, IH1; simpl.
Qed.

(** Running a sequence whose depth bookkeeping succeeds: the calls all
    return, the part of the stack below the starting depth is left alone,
    and the spans opened and closed are accounted for by the depth. *)
Lemma notify_all_depth l : forall d d' st base ext,
  depth_after' d l = Some d' ->
  spans st = base ++ ext -> length ext = d ->
  exists st' ext',
    notify_all' l st = (Ok tt, st')
    /\ spans st' = base ++ ext' /\ length ext' = d'
    /\ length (started st) <= length (started st')
    /\ length (started st') + length (ended st) + d
       = length (started st) + length (ended st') + d'.
Proof.
  induction l as [|p l IH]; intros d d' st base ext Hd Hs Hlen.
  - inversion Hd; subst. exists st, ext. by repeat split.
  - simpl in Hd. rewrite notify_all_cons.
    destruct (start_ok' p) eqn:Hstart.
    + destruct (start_ok_step p st Hstart) as (r & a & span & ->).
      destruct (IH (S d) d' (mkJaeger (spans st ++ [a]) (started st ++ [span])
                    (ended st) (Some span)) base (ext ++ [a]) Hd)
        as (st' & ext' & Hrun & Hs' & Hlen' & Hmono & Hcount).
      { simpl. by rewrite Hs, app_assoc. }
      { rewrite length_app. simpl. lia. }
      simpl in Hmono, Hcount. rewrite length_app in Hmono, Hcount.
      simpl in Hmono, Hcount.
      exists st', ext'. repeat split; try done; lia.
    + destruct (stop_ok p) eqn:Hstop; [|done].
      destruct d as [|d0]; [done|].
      destruct ext as [|a ext0 _] using rev_ind; [done|].
      rewrite length_app in Hlen. simpl in Hlen.
      rewrite app_assoc in Hs.
      rewrite (stop_ok_step p st a (base ++ ext0) Hstop Hs).
      destruct (IH d0 d' (mkJaeger (base ++ ext0) (started st)
                    (ended st ++ [act_span a]) (act_token a)) base ext0 Hd)
        as (st' & ext' & Hrun & Hs' & Hlen' & Hmono & Hcount); [done|lia|].
      simpl in Hmono, Hcount. rewrite length_app in Hcount. simpl in Hcount.
      exists st', ext'. repeat split; try done; lia.
Qed.


(** *** The claims about [notify] *)

(** C1. A start notification that [notify] can process (its timestamp
    parses, it has a [parent_id] entry, when the parent is not [None] a
    [base_id] entry such that [trace.SpanContext] accepts the two
    identifiers, and an [info] the tag builder accepts) returns normally
    after opening one span: with [parent_id = None] the result is the
    two-element list [[trace_id, span_id]] of that span, otherwise the
    one-element list [[span_id]] of that span. *)
Theorem notify_start_returns_identifiers payload st n ts t parent_id tags :
  payload !! "name" = Some (PStr n) ->
  Py.endswith n "start" = true ->
  payload !! "timestamp" = Some (PStr ts) ->
  strptime ts = Some t ->
  payload !! "parent_id" = Some parent_id ->
  (parent_id <> PNone ->
   exists base_id,
     payload !! "base_id" = Some base_id
     /\ is_ok (SpanContext_new base_id parent_id true true) = true) ->
  create_span_tags dumps payload = Ok tags ->
  exists span st' ret,
    notify strptime dumps new_span_context payload st = (Ok ret, st')
    /\ started st' = started st ++ [span]
    /\ act_span <$> last (spans st') = Some span
    /\ (parent_id = PNone ->
        ret = PList [trace_id (span_context span); span_id (span_context span)])
    /\ (parent_id <> PNone ->
        ret = PList [span_id (span_context span)]).
Proof.
  intros Hn He Hts Ht Hp Hbase Htags.
  destruct (Py.is_not_none parent_id) eqn:Hnn.
  - destruct Hbase as (base & Hb & Hctx); [by intros ->|].
    do 3 eexists. split; [by eapply notify_start_child|].
    simpl. rewrite last_snoc. repeat split; try done.
    by intros ->.
  - destruct parent_id; try done.
    do 3 eexists. split; [by eapply notify_start_root|].
    simpl. rewrite last_snoc. by repeat split.
Qed.

(** C3. A stop notification that arrives while the activation stack is
    empty is answered with an error raised to the caller (the [IndexError]
    of the empty deque), and the driver, its stack included, is left as it
    was: the stack is still empty. *)
Theorem notify_unbalanced_stop payload st n :
  payload !! "name" = Some (PStr n) ->
  Py.endswith n "start" = false ->
  spans st = [] ->
  notify strptime dumps new_span_context payload st = (Raise IndexError, st)
  /\ spans (notify strptime dumps new_span_context payload st).2 = [].
Proof.
  intros Hn He Hs.
  rewrite (notify_stop_empty payload st n) by done. by split.
Qed.

(** C6. When the timestamp of a start notification does not parse,
    [notify] raises [ValueError] to the caller and the driver is left as it
    was: no span is opened and nothing is pushed. *)
Theorem notify_malformed_timestamp payload st n ts :
  payload !! "name" = Some (PStr n) ->
  Py.endswith n "start" = true ->
  payload !! "timestamp" = Some (PStr ts) ->
  strptime ts = None ->
  notify strptime dumps new_span_context payload st = (Raise ValueError, st)
  /\ spans (notify strptime dumps new_span_context payload st).2 = spans st
  /\ started (notify strptime dumps new_span_context payload st).2 = started st.
Proof.
  intros Hn He Hts Ht.
  assert (notify' payload st = (Raise ValueError, st)) as ->; [|done].
  run_body. unfold Py.subscript.
  rewrite Hn. simpl. rewrite He, Hts. simpl. by rewrite Ht.
Qed.

(** C7. Delivering a well-nested sequence of notifications to a driver:
    every call returns; the activation stack at the end is the stack at the
    beginning (empty, if it was empty), as many spans have been opened as
    closed; and at every position of the sequence the notification there is
    a start that makes the stack one deeper or a stop that makes it one
    shallower. *)
Theorem notify_well_nested payloads st :
  well_nested strptime dumps payloads ->
  (exists st',
     notify_all strptime dumps new_span_context payloads st = (Ok tt, st')
     /\ spans st' = spans st
     /\ exists k, length (started st') = length (started st) + k
                  /\ length (ended st') = length (ended st) + k)
  /\ (forall pre p post,
        payloads = pre ++ p :: post ->
        exists st1 r st2,
          notify_all strptime dumps new_span_context pre st = (Ok tt, st1)
          /\ notify strptime dumps new_span_context p st1 = (Ok r, st2)
          /\ (start_ok strptime dumps p = true
              /\ length (spans st2) = S (length (spans st1))
              \/ stop_ok p = true
                 /\ S (length (spans st2)) = length (spans st1))).
Proof.
  intros Hwn. pose proof (well_nested_depth payloads Hwn 0) as Hdepth. split.
  - destruct (notify_all_depth payloads 0 0 st (spans st) [] Hdepth)
      as (st' & ext' & Hrun & Hs & Hlen & Hmono & Hcount);
      [by rewrite app_nil_r|done|].
    destruct ext'; [|done]. rewrite app_nil_r in Hs.
    exists st'. repeat split; try done.
    exists (length (started st') - length (started st)). lia.
  - intros pre p post ->.
    rewrite depth_after_app in Hdepth.
    destruct (depth_after' 0 pre) as [d1|] eqn:Hpre; [|done].
    simpl in Hdepth.
    destruct (notify_all_depth pre 0 d1 st (spans st) [] Hpre)
      as (st1 & ext1 & Hrun & Hs & Hlen & _);
      [by rewrite app_nil_r|done|].
    exists st1.
    destruct (start_ok' p) eqn:Hstart.
    + destruct (start_ok_step p st1 Hstart) as (r & a & span & Hp).
      do 2 eexists. split; [done|]. split; [exact Hp|]. left.
      split; [done|]. simpl. rewrite length_app. simpl. lia.
    + destruct (stop_ok p) eqn:Hstop; [|done].
      destruct d1 as [|d0]; [done|].
      destruct ext1 as [|a ext0 _] using rev_ind; [done|].
      rewrite app_assoc in Hs.
      do 2 eexists. split; [done|].
      split; [by apply (stop_ok_step p st1 a (spans st ++ ext0))|]. right.
      split; [done|]. simpl. rewrite Hs, !length_app. simpl. lia.
Qed.


End DriverFacts.

(** ** The statements on concrete notifications *)

Lemma notify_start_returns_identifiers_witness :
  Fixture.child_start !! "name" = Some (PStr "driver-start")
  /\ Py.endswith "driver-start" "start" = true
  /\ Fixture.child_start !! "timestamp" = Some (PStr "2018-01-01T00:00:01.500000")
  /\ Fixture.sample_strptime "2018-01-01T00:00:01.500000" = Some 1514764801500000%Z
  /\ Fixture.child_start !! "parent_id" = Some (PInt 1)
  /\ (PInt 1 <> PNone ->
      exists base_id,
        Fixture.child_start !! "base_id" = Some base_id
        /\ is_ok (SpanContext_new base_id (PInt 1) true true) = true)
  /\ create_span_tags Fixture.sample_dumps Fixture.child_start
     = Ok Fixture.function_foo
  /\ exists span st' ret,
       Fixture.run_notify Fixture.child_start init = (Ok ret, st')
       /\ started st' = started init ++ [span]
       /\ act_span <$> last (spans st') = Some span
       /\ (PInt 1 = PNone ->
           ret = PList [trace_id (span_context span); span_id (span_context span)])
       /\ (PInt 1 <> PNone ->
           ret = PList [span_id (span_context span)]).
Proof.
  assert (PInt 1 <> PNone ->
          exists base_id,
            Fixture.child_start !! "base_id" = Some base_id
            /\ is_ok (SpanContext_new base_id (PInt 1) true true) = true)
    as Hbase.
  { intros _. exists (PInt 1000). split; vm_compute; reflexivity. }
  repeat (split; [first [exact Hbase | vm_compute; reflexivity]|]).
  apply (notify_start_returns_identifiers Fixture.sample_strptime
           Fixture.sample_dumps Fixture.sample_context Fixture.child_start init
           "driver-start" "2018-01-01T00:00:01.500000" 1514764801500000
           (PInt 1) Fixture.function_foo);
    first [exact Hbase | vm_compute; reflexivity].
Defined.

Lemma create_span_tags_priority_witness :
  ({[ "info" := PDict Fixture.db_and_request ]} : gmap string pyval) !! "info"
  = Some (PDict Fixture.db_and_request)
  /\ create_span_tags Fixture.sample_dumps
       {[ "info" := PDict Fixture.db_and_request ]}
     = Ok {[ "db.statement" := PStr "SELECT 1";
             "db.params" := PStr "{...}" ]}.
Proof.
  assert (({[ "info" := PDict Fixture.db_and_request ]}
             : gmap string pyval) !! "info"
          = Some (PDict Fixture.db_and_request)) as Hinfo by reflexivity.
  split; [exact Hinfo|].
  destruct (create_span_tags_priority Fixture.sample_dumps _ _ Hinfo)
    as [Hdb _].
  apply (Hdb {[ "statement" := PStr "SELECT 1";
                "params" := PDict {[ "a" := PInt 1 ]} ]}
           (PStr "SELECT 1") (PDict {[ "a" := PInt 1 ]}));
    reflexivity.
Defined.

(** C2, as stated, fails: an [info] that has both a [db] and a [request]
    key, the [db] entry being an empty mapping, gets the four [http.*] tags
    and no [db.*] tag. *)
Lemma create_span_tags_empty_db_counterexample :
  is_Some (Fixture.empty_db_and_request !! "db")
  /\ is_Some (Fixture.empty_db_and_request !! "request")
  /\ create_span_tags Fixture.sample_dumps
       {[ "info" := PDict Fixture.empty_db_and_request ]}
     = Ok {[ "http.path" := PStr "/x"; "http.query" := PStr "q=1";
             "http.method" := PStr "GET"; "http.scheme" := PStr "http" ]}
  /\ ~ (forall info tags,
          is_Some (info !! "db") -> is_Some (info !! "request") ->
          create_span_tags Fixture.sample_dumps {[ "info" := PDict info ]}
          = Ok tags ->
          dom tags ⊆ {[ "db.statement"; "db.params" ]}).
Proof.
  split; [by eexists|]. split; [by eexists|]. split; [reflexivity|].
  intros Hclaim.
  assert ("http.path" ∈ ({[ "db.statement"; "db.params" ]} : gset string))
    as Hin.
  { eapply (Hclaim Fixture.empty_db_and_request);
      [by eexists | by eexists | reflexivity | vm_compute; reflexivity]. }
  revert Hin. rewrite elem_of_union, !elem_of_singleton. by intros [|].
Qed.

Lemma create_span_tags_outcome_witness :
  ({[ "info" := PDict Fixture.nameless_function ]} : gmap string pyval) !! "info"
  = Some (PDict Fixture.nameless_function)
  /\ create_span_tags Fixture.sample_dumps
       {[ "info" := PDict Fixture.nameless_function ]}
     = Raise (KeyError "name").
Proof.
  assert (({[ "info" := PDict Fixture.nameless_function ]}
             : gmap string pyval) !! "info"
          = Some (PDict Fixture.nameless_function)) as Hinfo by reflexivity.
  split; [exact Hinfo|].
  exact (create_span_tags_outcome Fixture.sample_dumps _ _ Hinfo).
Defined.

(** C5, as stated, fails: on a function entry without a name the tag
    builder raises [KeyError] instead of returning a tag mapping. *)
Lemma create_span_tags_nameless_counterexample :
  create_span_tags Fixture.sample_dumps
    {[ "info" := PDict Fixture.nameless_function ]}
  = Raise (KeyError "name")
  /\ ~ (forall info, exists tags,
          create_span_tags Fixture.sample_dumps {[ "info" := PDict info ]}
          = Ok tags).
Proof.
  assert (create_span_tags Fixture.sample_dumps
            {[ "info" := PDict Fixture.nameless_function ]}
          = Raise (KeyError "name")) as Heval by (vm_compute; reflexivity).
  split; [exact Heval|].
  intros Hclaim. destruct (Hclaim Fixture.nameless_function) as [tags Ht].
  rewrite Heval in Ht. discriminate Ht.
Qed.

Lemma create_span_tags_function_branch_witness :
  ({[ "info" := PDict {[ "function" := PDict Fixture.function_foo ]} ]}
     : gmap string pyval) !! "info"
  = Some (PDict {[ "function" := PDict Fixture.function_foo ]})
  /\ Fixture.function_foo !! "name" = Some (PStr "foo")
  /\ exists tags : gmap string pyval,
       create_span_tags Fixture.sample_dumps
         {[ "info" := PDict {[ "function" := PDict Fixture.function_foo ]} ]}
       = Ok tags
       /\ forall k, tags !! k =
            if decide (k = "name" \/ k = "args" \/ k = "kwargs")
            then Fixture.function_foo !! k else None.
Proof.
  split; [reflexivity|]. split; [reflexivity|].
  apply (proj2 (create_span_tags_function_branch Fixture.sample_dumps)
           {[ "info" := PDict {[ "function" := PDict Fixture.function_foo ]} ]}
           {[ "function" := PDict Fixture.function_foo ]}
           Fixture.function_foo (PStr "foo"));
    reflexivity.
Defined.

Lemma notify_unbalanced_stop_witness :
  Fixture.wsgi_stop !! "name" = Some (PStr "wsgi-stop")
  /\ Py.endswith "wsgi-stop" "start" = false
  /\ spans init = []
  /\ Fixture.run_notify Fixture.wsgi_stop init = (Raise IndexError, init)
  /\ spans (Fixture.run_notify Fixture.wsgi_stop init).2 = [].
Proof.
  split; [reflexivity|]. split; [reflexivity|]. split; [reflexivity|].
  apply (notify_unbalanced_stop Fixture.sample_strptime Fixture.sample_dumps
           Fixture.sample_context Fixture.wsgi_stop init "wsgi-stop");
    reflexivity.
Defined.

(** C4 on the start of an operation named [driver]: the name ends with the
    suffix [-start], yet the span is opened under the name [drive], because
    [rstrip] removes every trailing character that occurs in ["-start"]. *)
Theorem notify_span_name_driver :
  "driver-start" = "driver" +:+ "-start"
  /\ Py.rstrip "driver-start" "-start" = "drive"
  /\ span_name <$> last (started (Fixture.run_notify Fixture.child_start init).2)
     = Some "drive".
Proof. split; [reflexivity|]. split; vm_compute; reflexivity. Qed.

Lemma notify_malformed_timestamp_witness :
  Fixture.bad_time_start !! "name" = Some (PStr "wsgi-start")
  /\ Py.endswith "wsgi-start" "start" = true
  /\ Fixture.bad_time_start !! "timestamp" = Some (PStr "yesterday")
  /\ Fixture.sample_strptime "yesterday" = None
  /\ Fixture.run_notify Fixture.bad_time_start init = (Raise ValueError, init)
  /\ spans (Fixture.run_notify Fixture.bad_time_start init).2 = spans init
  /\ started (Fixture.run_notify Fixture.bad_time_start init).2 = started init.
Proof.
  do 4 (split; [vm_compute; reflexivity|]).
  apply (notify_malformed_timestamp Fixture.sample_strptime
           Fixture.sample_dumps Fixture.sample_context Fixture.bad_time_start
           init "wsgi-start" "yesterday");
    vm_compute; reflexivity.
Defined.

Lemma notify_well_nested_witness :
  well_nested Fixture.sample_strptime Fixture.sample_dumps
    [Fixture.root_start; Fixture.child_start;
     Fixture.driver_stop; Fixture.wsgi_stop]
  /\ exists st',
       Fixture.run_notify_all
         [Fixture.root_start; Fixture.child_start;
          Fixture.driver_stop; Fixture.wsgi_stop] init = (Ok tt, st')
       /\ spans st' = []
       /\ exists k, length (started st') = k /\ length (ended st') = k.
Proof.
  assert (well_nested Fixture.sample_strptime Fixture.sample_dumps
            [Fixture.root_start; Fixture.child_start;
             Fixture.driver_stop; Fixture.wsgi_stop]) as Hwn.
  { apply (wn_wrap _ _ Fixture.root_start
             [Fixture.child_start; Fixture.driver_stop] Fixture.wsgi_stop);
      [vm_compute; reflexivity | vm_compute; reflexivity |].
    apply (wn_wrap _ _ Fixture.child_start [] Fixture.driver_stop);
      [vm_compute; reflexivity | vm_compute; reflexivity |].
    apply wn_nil. }
  split; [exact Hwn|].
  exact (proj1 (notify_well_nested Fixture.sample_strptime Fixture.sample_dumps
                  Fixture.sample_context _ init Hwn)).
Defined.


(** * Further properties of the driver *)

(** ** String methods as [notify] uses them *)

Lemma str_mem_app c a b :
  Py.str_mem c (a +:+ b) = Py.str_mem c a || Py.str_mem c b.
Proof.
  induction a as [|c' a IH]; simpl; [done|].
  by destruct (decide (c = c')).
Qed.

Lemma rstrip_empty_iff s chars :
  Py.rstrip s chars = "" <-> forall c, Py.str_mem c s = true -> Py.str_mem c chars = true.
Proof.
  induction s as [|c s IH]; simpl.
  - split; [by intros _ c' ?|done].
  - destruct (Py.rstrip s chars) as [|c1 r] eqn:Hr.
    + destruct (Py.str_mem c chars) eqn:Hc; split; try done.
      * intros _ c'. destruct (decide (c' = c)) as [->|]; [done|].
        by apply IH.
      * intros Hall. specialize (Hall c). rewrite decide_True in Hall by done.
        rewrite Hc in Hall. by discriminate Hall.
    + split; [done|]. intros Hall.
      assert (String c1 r = "") as Habs; [|done].
      apply IH. intros c' Hc'. apply Hall.
      by destruct (decide (c' = c)).
Qed.

(** What [rstrip] removes is a tail made of characters of [chars]. *)
Lemma rstrip_split s chars :
  exists removed,
    s = Py.rstrip s chars +:+ removed
    /\ forall c, Py.str_mem c removed = true -> Py.str_mem c chars = true.
Proof.
  induction s as [|c s (removed & Hs & Hall)]; simpl.
  - by exists "".
  - destruct (Py.rstrip s chars) as [|c1 r] eqn:Hr.
    + change (s = removed) in Hs. subst removed.
      destruct (Py.str_mem c chars) eqn:Hc.
      * exists (String c s). split; [done|].
        intros c'. simpl. destruct (decide (c' = c)) as [->|]; [done|].
        apply Hall.
      * exists s. by split.
    + exists removed. split; [|done].
      change (String c s = String c (String c1 r +:+ removed)). by rewrite <-Hs.
Qed.

(** What [rstrip] returns does not end in a character of [chars]. *)
Lemma rstrip_last s chars pre c :
  Py.rstrip s chars = pre +:+ String c "" -> Py.str_mem c chars = false.
Proof.
  revert pre. induction s as [|c0 s IH]; intros pre; simpl.
  - by destruct pre.
  - destruct (Py.rstrip s chars) as [|c1 r] eqn:Hr.
    + destruct (Py.str_mem c0 chars) eqn:Hc; [by destruct pre|].
      destruct pre as [|c2 pre]; simpl; [by intros [= <-]|].
      intros [= _ Hpre]. by destruct pre.
    + destruct pre as [|c2 pre]; simpl; [done|].
      intros [= _ Hpre]. by apply (IH pre).
Qed.

(** A tail made of characters of [chars] is stripped entirely. *)
Lemma rstrip_app_stripped s removed chars :
  (forall c, Py.str_mem c removed = true -> Py.str_mem c chars = true) ->
  Py.rstrip (s +:+ removed) chars = Py.rstrip s chars.
Proof.
  intros Hall%rstrip_empty_iff. induction s as [|c s IH]; simpl; [done|].
  by rewrite IH.
Qed.

(** A string that ends outside [chars] is returned whole. *)
Lemma rstrip_keep pre c chars :
  Py.str_mem c chars = false ->
  Py.rstrip (pre +:+ String c "") chars = pre +:+ String c "".
Proof.
  intros Hc. induction pre as [|c0 pre IH]; simpl.
  - by rewrite Hc.
  - rewrite IH. by destruct pre.
Qed.

Lemma string_snoc_case s : s = "" \/ exists pre c, s = pre +:+ String c "".
Proof.
  induction s as [|c s [->|(pre & c' & ->)]]; [by left|right..].
  - by exists "", c.
  - by exists (String c pre), c'.
Qed.

Lemma string_length_app a b :
  String.length (a +:+ b) = String.length a + String.length b.
Proof.
  induction a as [|c a IH]; [done|].
  change (String c a +:+ b) with (String c (a +:+ b)). simpl. by rewrite IH.
Qed.

Lemma endswith_app_short a b suffix :
  String.length suffix <= String.length b ->
  Py.endswith (a +:+ b) suffix = Py.endswith b suffix.
Proof.
  intros Hlen. induction a as [|c a IH]; [done|].
  change (String c a +:+ b) with (String c (a +:+ b)).
  cbn [Py.endswith]. rewrite IH.
  destruct (String.eqb_spec (String c (a +:+ b)) suffix) as [<-|]; [|done].
  simpl in Hlen. rewrite string_length_app in Hlen. lia.
Qed.

(** ** More on the tag builder *)

Section TagMore.

Variable dumps : pyval -> string.
Implicit Types (payload info d : gmap string pyval) (v : pyval).

Abbreviation entry info k := (default PNone (info !! k)).

Ltac dom_eq :=
  rewrite ?dom_insert_L, ?dom_empty_L; apply set_eq; intros ?;
  rewrite ?elem_of_union, ?elem_of_singleton, ?elem_of_empty; tauto.

(** X1. Without a usable [info] entry the tag builder raises: [KeyError]
    when the payload has no [info] key, [AttributeError] when the entry is
    not a mapping. *)
Theorem create_span_tags_without_info payload :
  (forall info, payload !! "info" <> Some (PDict info)) ->
  create_span_tags dumps payload =
    Raise (match payload !! "info" with
           | None => KeyError "info"
           | Some _ => AttributeError
           end).
Proof.
  intros Hno. unfold create_span_tags, Py.subscript.
  destruct (payload !! "info") as [[| | | | |info]|]; try done.
  by destruct (Hno info).
Qed.

(** X2. The tags of one call never mix the three families: a returned
    mapping has exactly the two [db.*] keys, or exactly the four [http.*]
    keys, or [name] with at most [args] and [kwargs], or no key at all. *)
Theorem create_span_tags_one_family payload tags :
  create_span_tags dumps payload = Ok tags ->
  dom tags = {[ "db.statement"; "db.params" ]}
  \/ dom tags = {[ "http.path"; "http.query"; "http.method"; "http.scheme" ]}
  \/ (is_Some (tags !! "name") /\ dom tags ⊆ {[ "name"; "args"; "kwargs" ]})
  \/ tags = ∅.
Proof.
  intros Hok.
  destruct (payload !! "info") as [[| | | | |info]|] eqn:Hinfo;
    try (rewrite create_span_tags_without_info in Hok
           by (intros ?; by rewrite Hinfo);
         by rewrite Hinfo in Hok).
  destruct (Py.truthy (entry info "db")) eqn:Hdb.
  { rewrite (tags_db dumps payload info) in Hok by done.
    destruct (entry info "db") as [| | | | |d]; try done.
    simpl in Hok. unfold Py.subscript in Hok.
    destruct (d !! "statement"); [|done].
    destruct (d !! "params"); [|done].
    injection Hok as <-. left. dom_eq. }
  destruct (Py.truthy (entry info "request")) eqn:Hreq.
  { rewrite (tags_request dumps payload info) in Hok by done.
    destruct (entry info "request") as [| | | | |d]; try done.
    simpl in Hok. unfold Py.subscript in Hok.
    destruct (d !! "path"); [|done].
    destruct (d !! "query"); [|done].
    destruct (d !! "method"); [|done].
    destruct (d !! "scheme"); [|done].
    injection Hok as <-. right. left. dom_eq. }
  destruct (Py.truthy (entry info "function")) eqn:Hfun.
  { rewrite (tags_function dumps payload info) in Hok by done.
    destruct (entry info "function") as [|b|z|s|l|d]; try done.
    - simpl in Hok.
      by destruct (Py.str_contains "args" s), (Py.str_contains "kwargs" s).
    - simpl in Hok. by repeat destruct (existsb _ l).
    - destruct (d !! "name") as [name|] eqn:Hname.
      + destruct (function_tags dumps d name Hname) as (tags' & Heq & Htags).
        rewrite Heq in Hok. injection Hok as <-.
        right. right. left. split.
        * rewrite Htags, decide_True by auto. by rewrite Hname.
        * intros k [x Hk]%elem_of_dom. rewrite Htags in Hk.
          destruct (decide _) as [Hor|]; [|done].
          rewrite !elem_of_union, !elem_of_singleton. tauto.
      + simpl in Hok. unfold Py.subscript in Hok. rewrite Hname in Hok.
        destruct (d !! "args"), (d !! "kwargs");
          repeat (first [rewrite bool_decide_eq_true_2 in Hok by eauto
                        |rewrite bool_decide_eq_false_2 in Hok
                           by (by intros [? ?])]);
          done. }
  rewrite (tags_none dumps payload info) in Hok by done.
  injection Hok as <-. by repeat right.
Qed.

(** X3. A [db] entry that is false in Python's sense ([None], an empty
    mapping, an empty string, zero, ...) counts for nothing: the tag builder
    answers as if the key were not there. *)
Theorem create_span_tags_false_db payload info :
  payload !! "info" = Some (PDict info) ->
  Py.truthy (entry info "db") = false ->
  create_span_tags dumps payload =
    create_span_tags dumps (<["info" := PDict (delete "db" info)]> payload).
Proof.
  intros Hinfo Hdb.
  assert ((<["info" := PDict (delete "db" info)]> payload) !! "info"
          = Some (PDict (delete "db" info))) as Hinfo'
    by apply lookup_insert_eq.
  assert (Py.truthy (entry (delete "db" info) "db") = false) as Hdb'
    by (by rewrite lookup_delete_eq).
  assert (entry (delete "db" info) "request" = entry info "request") as Hr
    by (by rewrite lookup_delete_ne).
  assert (entry (delete "db" info) "function" = entry info "function") as Hf
    by (by rewrite lookup_delete_ne).
  destruct (Py.truthy (entry info "request")) eqn:Hreq.
  { rewrite (tags_request dumps payload info) by done.
    rewrite (tags_request dumps _ (delete "db" info)) by (by rewrite ?Hr).
    by rewrite Hr. }
  destruct (Py.truthy (entry info "function")) eqn:Hfun.
  { rewrite (tags_function dumps payload info) by done.
    rewrite (tags_function dumps _ (delete "db" info))
      by (by rewrite ?Hr, ?Hf).
    by rewrite Hf. }
  rewrite (tags_none dumps payload info) by done.
  by rewrite (tags_none dumps _ (delete "db" info)) by (by rewrite ?Hr, ?Hf).
Qed.

End TagMore.

(** ** More on [notify] *)

Section DriverMore.

Variable strptime : string -> option Z.
Variable dumps : pyval -> string.
Variable new_span_context : nat -> option SpanContext -> SpanContext.

Implicit Types (payload : gmap string pyval) (st : Jaeger).

Abbreviation run := (notify strptime dumps new_span_context).
Abbreviation run_all := (notify_all strptime dumps new_span_context).

Ltac step_body :=
  unfold notify, spans_pop, activation_exit, span_end, spans_append,
    use_span_enter, start_span, lift, mbind, M_bind, mret, M_ret; simpl.

(** The three ways a call can go: it raises and leaves the driver alone, it
    opens a span and pushes its activation, or it pops the top activation
    and closes its span. *)
Lemma notify_cases payload st :
  (exists e, run payload st = (Raise e, st))
  \/ (exists r span,
        run payload st =
          (Ok r, mkJaeger (spans st ++ [mkActivation span (current st)])
                   (started st ++ [span]) (ended st) (Some span)))
  \/ (exists a rest,
        spans st = rest ++ [a]
        /\ run payload st =
             (Ok PNone, mkJaeger rest (started st)
                          (ended st ++ [act_span a]) (act_token a))).
Proof.
  destruct (payload !! "name") as [[| | |n| |]|] eqn:Hn;
    try (left; eexists; step_body; unfold Py.subscript; rewrite Hn;
         reflexivity).
  destruct (Py.endswith n "start") eqn:He.
  - step_body. unfold Py.subscript. rewrite Hn. simpl. rewrite He.
    destruct (payload !! "timestamp") as [v|]; simpl; [|by eauto].
    destruct (datetime_strptime strptime v) as [t|e]; simpl; [|by eauto].
    destruct (payload !! "parent_id") as [pid|]; simpl; [|by eauto].
    destruct (Py.is_not_none pid); simpl.
    + destruct (payload !! "base_id") as [base|]; simpl; [|by eauto].
      destruct (SpanContext_new base pid true true) as [ctx|e]; simpl;
        [|by eauto].
      destruct (create_span_tags dumps payload) as [tags|e]; simpl; eauto 6.
    + destruct (create_span_tags dumps payload) as [tags|e]; simpl; eauto 6.
  - destruct (spans st) as [|a rest _] eqn:Hs using rev_ind.
    + left. exists IndexError. by eapply notify_stop_empty.
    + right. right. exists a, rest. split; [done|]. by eapply notify_stop.
Qed.

Lemma start_ok_inv payload :
  start_ok strptime dumps payload = true ->
  exists n ts t parent_id tags,
    payload !! "name" = Some (PStr n)
    /\ Py.endswith n "start" = true
    /\ payload !! "timestamp" = Some (PStr ts)
    /\ strptime ts = Some t
    /\ payload !! "parent_id" = Some parent_id
    /\ (Py.is_not_none parent_id = true ->
        exists base_id,
          payload !! "base_id" = Some base_id
          /\ is_ok (SpanContext_new base_id parent_id true true) = true)
    /\ create_span_tags dumps payload = Ok tags.
Proof.
  unfold start_ok. intros Hok.
  destruct (payload !! "name") as [[| | |n| |]|]; try done.
  destruct (payload !! "timestamp") as [[| | |ts| |]|]; try done.
  destruct (payload !! "parent_id") as [pid|]; try done.
  apply andb_true_iff in Hok as [Hok Htags].
  apply andb_true_iff in Hok as [Hok Hbase].
  apply andb_true_iff in Hok as [He Ht].
  apply bool_decide_eq_true in Ht as [t Ht].
  destruct (create_span_tags dumps payload) as [tags|]; [|done].
  exists n, ts, t, pid, tags. repeat split; try done.
  intros Hnn. rewrite Hnn in Hbase. simpl in Hbase.
  destruct (payload !! "base_id") as [base|]; [|done]. by exists base.
Qed.

(** An acceptable start, spelled out. *)
Lemma start_ok_run payload st :
  start_ok strptime dumps payload = true ->
  exists n parent_id tags,
    payload !! "name" = Some (PStr n)
    /\ payload !! "parent_id" = Some parent_id
    /\ create_span_tags dumps payload = Ok tags
    /\ let parent :=
         if Py.is_not_none parent_id
         then payload !! "base_id" ≫= (fun base_id =>
                let ctx := mkSpanContext base_id parent_id true true in
                if span_context_is_valid ctx then Some ctx else None)
         else None in
       let span := mkSpan (Py.rstrip n "-start") parent
                     (map_imap clean_attribute tags)
                     (new_span_context (length (started st)) parent) in
       run payload st =
         (Ok (if Py.is_not_none parent_id
              then PList [span_id (span_context span)]
              else PList [trace_id (span_context span);
                          span_id (span_context span)]),
          mkJaeger (spans st ++ [mkActivation span (current st)])
            (started st ++ [span]) (ended st) (Some span)).
Proof.
  intros (n & ts & t & pid & tags & Hn & He & Hts & Ht & Hp & Hb & Htags)
    %start_ok_inv.
  exists n, pid, tags. repeat (split; [done|]).
  destruct (Py.is_not_none pid) eqn:Hnn.
  - destruct Hb as (base & Hb & Hctx); [done|]. rewrite Hb. simpl.
    by eapply notify_start_child.
  - destruct pid; try done. simpl. by eapply notify_start_root.
Qed.


(** *** Errors *)

(** X4. A call that raises has not touched the driver: whatever the payload
    and the state, the state after a raising call is the state before. *)
Theorem notify_raise_unchanged payload st e st' :
  notify strptime dumps new_span_context payload st = (Raise e, st') ->
  st' = st.
Proof.
  intros Hrun.
  destruct (notify_cases payload st)
    as [[e' He]|[(r & span & He)|(a & rest & _ & He)]];
    rewrite He in Hrun; by inversion Hrun.
Qed.

(** X5. A payload without a string under [name] is refused before it is
    classified: [KeyError] when the key is missing, [AttributeError] when
    the entry is not a string. *)
Theorem notify_without_name payload st :
  (forall s, payload !! "name" <> Some (PStr s)) ->
  notify strptime dumps new_span_context payload st =
    (Raise (match payload !! "name" with
            | None => KeyError "name"
            | Some _ => AttributeError
            end), st).
Proof.
  intros Hno. step_body. unfold Py.subscript.
  destruct (payload !! "name") as [[| | |s| |]|]; try done.
  by destruct (Hno s).
Qed.

(** X6. What a start must carry, in the order [notify] reads it: the
    timestamp, then [parent_id] (the key must be there, [None] marks a
    root), then [base_id] when the parent is not [None], then [info].  The
    first one missing is reported as a [KeyError] naming it.  Between
    [base_id] and [info] the parent context is built: identifiers that
    [trace.SpanContext] does not accept give a [TypeError]. *)
Theorem notify_start_missing_key payload st n :
  payload !! "name" = Some (PStr n) ->
  Py.endswith n "start" = true ->
  (payload !! "timestamp" = None ->
   notify strptime dumps new_span_context payload st
   = (Raise (KeyError "timestamp"), st))
  /\ (forall ts t,
        payload !! "timestamp" = Some (PStr ts) -> strptime ts = Some t ->
        (payload !! "parent_id" = None ->
         notify strptime dumps new_span_context payload st
         = (Raise (KeyError "parent_id"), st))
        /\ (forall parent_id,
              payload !! "parent_id" = Some parent_id ->
              (parent_id <> PNone -> payload !! "base_id" = None ->
               notify strptime dumps new_span_context payload st
               = (Raise (KeyError "base_id"), st))
              /\ (forall base_id,
                    parent_id <> PNone ->
                    payload !! "base_id" = Some base_id ->
                    is_ok (SpanContext_new base_id parent_id true true)
                    = false ->
                    notify strptime dumps new_span_context payload st
                    = (Raise TypeError, st))
              /\ ((parent_id <> PNone ->
                   exists base_id,
                     payload !! "base_id" = Some base_id
                     /\ is_ok (SpanContext_new base_id parent_id true true)
                        = true) ->
                  payload !! "info" = None ->
                  notify strptime dumps new_span_context payload st
                  = (Raise (KeyError "info"), st)))).
Proof.
  intros Hn He. split.
  - intros Hts. step_body. unfold Py.subscript.
    rewrite Hn. simpl. by rewrite He, Hts.
  - intros ts t Hts Ht. split.
    + intros Hp. step_body. unfold Py.subscript.
      rewrite Hn. simpl. rewrite He, Hts. simpl. by rewrite Ht, Hp.
    + intros pid Hp. split; [|split].
      * intros Hnn Hb. step_body. unfold Py.subscript.
        rewrite Hn. simpl. rewrite He, Hts. simpl. rewrite Ht, Hp. simpl.
        destruct pid; try done; simpl; by rewrite Hb.
      * intros base Hnn Hb Hctx. step_body. unfold Py.subscript.
        rewrite Hn. simpl. rewrite He, Hts. simpl. rewrite Ht, Hp. simpl.
        assert (Py.is_not_none pid = true) as -> by (by destruct pid).
        simpl. rewrite Hb. simpl.
        destruct (SpanContext_new base pid true true) as [ctx|e] eqn:Hnew;
          [done|].
        by apply SpanContext_new_raise in Hnew as ->.
      * intros Hb Hinfo. step_body. unfold Py.subscript.
        rewrite Hn. simpl. rewrite He, Hts. simpl. rewrite Ht, Hp. simpl.
        assert (create_span_tags dumps payload = Raise (KeyError "info"))
          as Htags by (unfold create_span_tags, Py.subscript; by rewrite Hinfo).
        destruct (Py.is_not_none pid) eqn:Hnn; simpl.
        -- destruct Hb as (base & Hb & Hctx%SpanContext_new_ok);
             [by intros ->|].
           rewrite Hb. simpl. rewrite Hctx. simpl. by rewrite Htags.
        -- by rewrite Htags.
Qed.

(** X7. When the tag builder raises on a start that is otherwise in order
    (its identifiers included, when it has a parent), [notify] passes the
    exception on and the start is abandoned: no span is opened and nothing
    is pushed. *)
Theorem notify_tag_failure_aborts payload st n ts t parent_id e :
  payload !! "name" = Some (PStr n) ->
  Py.endswith n "start" = true ->
  payload !! "timestamp" = Some (PStr ts) ->
  strptime ts = Some t ->
  payload !! "parent_id" = Some parent_id ->
  (parent_id <> PNone ->
   exists base_id,
     payload !! "base_id" = Some base_id
     /\ is_ok (SpanContext_new base_id parent_id true true) = true) ->
  create_span_tags dumps payload = Raise e ->
  notify strptime dumps new_span_context payload st = (Raise e, st).
Proof.
  intros Hn He Hts Ht Hp Hb Htags. step_body. unfold Py.subscript.
  rewrite Hn. simpl. rewrite He, Hts. simpl. rewrite Ht, Hp. simpl.
  destruct (Py.is_not_none parent_id) eqn:Hnn; simpl.
  - destruct Hb as (base & Hb & Hctx%SpanContext_new_ok); [by intros ->|].
    rewrite Hb. simpl. rewrite Hctx. simpl. by rewrite Htags.
  - by rewrite Htags.
Qed.


(** *** The span a start opens *)

(** X8. An acceptable start opens a span that holds of the tags of the tag
    builder what the tracer keeps of an attribute: a tag whose value is a
    [bool], an [int], a [str] or a list of these of one type is held as it
    is, a tag whose value is [None], a mapping or any other list is dropped.
    Its parent is the remote, sampled context made of the payload's
    [base_id] and [parent_id] when [parent_id] is not [None] and that
    context is valid (both identifiers in range); otherwise the span has no
    parent. *)
Theorem notify_start_span payload st parent_id :
  start_ok strptime dumps payload = true ->
  payload !! "parent_id" = Some parent_id ->
  exists span tags,
    last (started (notify strptime dumps new_span_context payload st).2)
    = Some span
    /\ create_span_tags dumps payload = Ok tags
    /\ (forall k, span_attributes span !! k = tags !! k ≫= clean_attribute k)
    /\ span_parent span =
         match parent_id with
         | PNone => None
         | _ =>
             payload !! "base_id" ≫= (fun base_id =>
               let ctx := mkSpanContext base_id parent_id true true in
               if span_context_is_valid ctx then Some ctx else None)
         end.
Proof.
  intros Hok Hp.
  destruct (start_ok_run payload st Hok)
    as (n & pid & tags & Hn & Hp' & Htags & Hrun).
  rewrite Hp in Hp'. injection Hp' as <-. cbv zeta in Hrun. rewrite Hrun.
  eexists _, tags. simpl. rewrite last_snoc. split; [done|]. simpl.
  split; [done|]. split; [intros k; apply map_lookup_imap|].
  by destruct parent_id.
Qed.

(** X9. The identifiers a root start returns link a child to it: when the
    next start carries them as [base_id] and [parent_id], the span it opens
    has the root span's context, marked remote and sampled, as parent.  The
    identifiers are taken to be valid, as those the tracer draws are. *)
Theorem notify_identifiers_link root child st trace span st1 :
  start_ok strptime dumps root = true ->
  notify strptime dumps new_span_context root st
  = (Ok (PList [trace; span]), st1) ->
  start_ok strptime dumps child = true ->
  child !! "base_id" = Some trace ->
  child !! "parent_id" = Some span ->
  span <> PNone ->
  span_context_is_valid (mkSpanContext trace span true true) = true ->
  exists root_span child_span,
    started (notify strptime dumps new_span_context child st1).2
    = started st ++ [root_span; child_span]
    /\ trace_id (span_context root_span) = trace
    /\ span_id (span_context root_span) = span
    /\ span_parent child_span = Some (mkSpanContext trace span true true).
Proof.
  intros Hroot Hrun Hchild Hbase Hparent Hspan Hvalid.
  destruct (start_ok_run root st Hroot)
    as (n & pid & tags & _ & _ & _ & Hrun').
  cbv zeta in Hrun'. rewrite Hrun' in Hrun.
  destruct (Py.is_not_none pid); [done|].
  injection Hrun as Htrace Hsp <-.
  match goal with
  | |- context [notify _ _ _ child ?s] =>
      destruct (start_ok_run child s Hchild)
        as (n2 & pid2 & tags2 & _ & Hp2 & _ & Hrun2)
  end.
  rewrite Hparent in Hp2. injection Hp2 as <-.
  cbv zeta in Hrun2. rewrite Hrun2. simpl.
  do 2 eexists. split; [by rewrite <-app_assoc|].
  simpl. repeat split; try done.
  rewrite Hbase. simpl. rewrite Hvalid. by destruct span.
Qed.

(** *** Bookkeeping *)

(** X10. One call opens at most one span and closes at most one, never
    both, and it never drops or reorders what was recorded before. *)
Theorem notify_one_span_per_call payload st :
  let st' := (notify strptime dumps new_span_context payload st).2 in
  (started st' = started st /\ ended st' = ended st)
  \/ (exists span, started st' = started st ++ [span]
                   /\ ended st' = ended st)
  \/ (exists span, started st' = started st
                   /\ ended st' = ended st ++ [span]).
Proof.
  destruct (notify_cases payload st)
    as [[e' He]|[(r & span & He)|(a & rest & _ & He)]];
    simpl; rewrite He; simpl; eauto.
Qed.

(** X11. Every call keeps the books: if the open activations number the
    spans opened minus the spans closed, and only spans that were opened
    are on the stack or closed, the same holds after the call, whether it
    returns or raises. *)
Theorem notify_keeps_accounted payload st :
  accounted st ->
  accounted (notify strptime dumps new_span_context payload st).2.
Proof.
  intros (Hlen & Hstack & Hended).
  destruct (notify_cases payload st)
    as [[e' He]|[(r & span & He)|(a & rest & Hs & He)]];
    rewrite He; simpl; [done|..]; unfold accounted; simpl.
  - rewrite !length_app. simpl. split; [lia|]. split.
    + intros a [Ha| ->%list_elem_of_singleton]%elem_of_app.
      * apply elem_of_app. left. by apply Hstack.
      * apply elem_of_app. right. simpl. by apply list_elem_of_singleton.
    + intros s Hs. apply elem_of_app. left. by apply Hended.
  - rewrite Hs in Hlen, Hstack. rewrite !length_app in *. simpl in *.
    split; [lia|]. split.
    + intros a' Ha'. apply Hstack, elem_of_app. by left.
    + intros s [Hs'| ->%list_elem_of_singleton]%elem_of_app.
      * by apply Hended.
      * apply Hstack, elem_of_app. right. by apply list_elem_of_singleton.
Qed.


(** *** Whole deliveries *)

Lemma notify_all_snoc l payload st st1 :
  run_all l st = (Ok tt, st1) ->
  run_all (l ++ [payload]) st =
    match run payload st1 with
    | (Ok _, st') => (Ok tt, st')
    | (Raise e, st') => (Raise e, st')
    end.
Proof.
  revert st. induction l as [|p l IH]; intros st Hrun.
  - inversion Hrun; subst. simpl app. rewrite notify_all_cons.
    by destruct (run payload st1) as [[r|e] st'].
  - simpl app. rewrite notify_all_cons in *.
    destruct (run p st) as [[r|e] st0]; [|done]. by apply IH.
Qed.

(** A delivery only ever appends to the record of opened spans. *)
Lemma notify_all_started l st r st' :
  run_all l st = (r, st') -> exists more, started st' = started st ++ more.
Proof.
  revert st. induction l as [|p l IH]; intros st Hrun.
  - inversion Hrun; subst. exists []. by rewrite app_nil_r.
  - rewrite notify_all_cons in Hrun.
    destruct (notify_cases p st)
      as [[e' He]|[(r' & span & He)|(a & rest & _ & He)]];
      rewrite He in Hrun.
    + inversion Hrun; subst. exists []. by rewrite app_nil_r.
    + apply IH in Hrun as [more Hmore]. simpl in Hmore.
      exists (span :: more). by rewrite Hmore, <-app_assoc.
    + apply IH in Hrun as [more Hmore]. by exists more.
Qed.

Lemma stop_ok_empty payload st :
  stop_ok payload = true -> spans st = [] ->
  run payload st = (Raise IndexError, st).
Proof.
  unfold stop_ok. intros Hok Hs.
  destruct (payload !! "name") as [[| | |n| |]|] eqn:Hn; try done.
  apply negb_true_iff in Hok. by eapply notify_stop_empty.
Qed.

(** X12. In a well-nested delivery a stop closes the span that its own
    start opened: after [start], a well-nested body and [stop], the span
    closed last is the one that [start] opened. *)
Theorem notify_stop_matches_start start body stop st :
  start_ok strptime dumps start = true ->
  stop_ok stop = true ->
  well_nested strptime dumps body ->
  exists st' span,
    notify_all strptime dumps new_span_context (start :: body ++ [stop]) st
    = (Ok tt, st')
    /\ last (started (notify strptime dumps new_span_context start st).2)
       = Some span
    /\ last (ended st') = Some span
    /\ spans st' = spans st.
Proof.
  intros Hstart Hstop Hbody.
  destruct (start_ok_run start st Hstart)
    as (n & pid & tags & _ & _ & _ & Hrun).
  cbv zeta in Hrun.
  set (span := mkSpan _ _ _ _) in Hrun.
  set (st1 := mkJaeger _ _ _ _) in Hrun.
  destruct (notify_all_depth strptime dumps new_span_context body 0 0 st1
              (spans st1) [] (well_nested_depth strptime dumps body Hbody 0))
    as (st2 & ext & Hrun2 & Hs2 & Hlen & _); [by rewrite app_nil_r|done|].
  destruct ext; [|done]. rewrite app_nil_r in Hs2. simpl in Hs2.
  exists (mkJaeger (spans st) (started st2)
            (ended st2 ++ [span]) (current st)), span.
  split.
  - rewrite notify_all_cons, Hrun.
    rewrite (notify_all_snoc body stop st1 st2 Hrun2).
    by rewrite (stop_ok_step strptime dumps new_span_context stop st2 _ _
                  Hstop Hs2).
  - rewrite Hrun. simpl. by rewrite !last_snoc.
Qed.

(** X13. What becomes of a delivery of acceptable notifications is decided
    by the nesting depth alone: if no stop comes at depth 0 every call
    returns and the stack ends at the computed depth; otherwise the
    delivery ends in the [IndexError] of that stop, with the stack empty. *)
Theorem notify_all_outcome payloads st :
  (forall p, p ∈ payloads ->
             start_ok strptime dumps p = true \/ stop_ok p = true) ->
  match depth_after strptime dumps (length (spans st)) payloads with
  | Some depth =>
      exists st',
        notify_all strptime dumps new_span_context payloads st = (Ok tt, st')
        /\ length (spans st') = depth
  | None =>
      exists st',
        notify_all strptime dumps new_span_context payloads st
        = (Raise IndexError, st')
        /\ spans st' = []
  end.
Proof.
  revert st. induction payloads as [|p l IH]; intros st Hall.
  - simpl. by exists st.
  - assert (forall q, q ∈ l ->
              start_ok strptime dumps q = true \/ stop_ok q = true) as Hl
      by (intros q Hq; apply Hall; by right).
    cbn [depth_after].
    destruct (start_ok strptime dumps p) eqn:Hstart.
    + destruct (start_ok_step strptime dumps new_span_context p st Hstart)
        as (r & a & span & Hp).
      specialize (IH (mkJaeger (spans st ++ [a]) (started st ++ [span])
                        (ended st) (Some span)) Hl).
      simpl in IH. rewrite length_app, Nat.add_1_r in IH.
      destruct (depth_after strptime dumps (S (length (spans st))) l);
        destruct IH as (st' & Hrun & Hst'); exists st';
        by rewrite notify_all_cons, Hp.
    + destruct (Hall p) as [Hp|Hstop]; [by left|congruence|].
      rewrite Hstop.
      destruct (spans st) as [|a rest _] eqn:Hs using rev_ind.
      * exists st. by rewrite notify_all_cons, (stop_ok_empty p st Hstop Hs).
      * specialize (IH (mkJaeger rest (started st) (ended st ++ [act_span a])
                          (act_token a)) Hl).
        simpl in IH. rewrite length_app, Nat.add_1_r.
        destruct (depth_after strptime dumps (length rest) l);
          destruct IH as (st' & Hrun & Hst'); exists st';
          by rewrite notify_all_cons,
               (stop_ok_step strptime dumps new_span_context p st a rest
                  Hstop Hs).
Qed.

(** *** Names *)

(** X14. The name of the span is what [rstrip] leaves of the notification
    name: a prefix of it, the removed tail being made of the characters
    [-], [s], [t], [a], [r] only, and never ending in one of them. *)
Theorem notify_span_name_rstrip payload st n :
  start_ok strptime dumps payload = true ->
  payload !! "name" = Some (PStr n) ->
  exists span removed,
    last (started (notify strptime dumps new_span_context payload st).2)
    = Some span
    /\ n = span_name span +:+ removed
    /\ (forall c, Py.str_mem c removed = true -> Py.str_mem c "-start" = true)
    /\ (forall pre c, span_name span = pre +:+ String c "" ->
                      Py.str_mem c "-start" = false).
Proof.
  intros Hok Hn.
  destruct (start_ok_run payload st Hok)
    as (n' & pid & tags & Hn' & _ & _ & Hrun).
  rewrite Hn in Hn'. injection Hn' as <-. cbv zeta in Hrun. rewrite Hrun.
  destruct (rstrip_split n "-start") as (removed & Hsplit & Hremoved).
  eexists _, removed. simpl. rewrite last_snoc. split; [done|]. simpl.
  split; [done|]. split; [done|].
  intros pre c. apply rstrip_last.
Qed.

(** X15. For a start named [op-start] the span is named [op] exactly when
    [op] is empty or ends in a character other than [-], [s], [t], [a],
    [r]. *)
Theorem notify_span_name_exact payload st op :
  start_ok strptime dumps payload = true ->
  payload !! "name" = Some (PStr (op +:+ "-start")) ->
  exists span,
    last (started (notify strptime dumps new_span_context payload st).2)
    = Some span
    /\ (span_name span = op
        <-> op = ""
            \/ exists pre c, op = pre +:+ String c ""
                             /\ Py.str_mem c "-start" = false).
Proof.
  intros Hok Hn.
  destruct (start_ok_run payload st Hok)
    as (n' & pid & tags & Hn' & _ & _ & Hrun).
  rewrite Hn in Hn'. injection Hn' as <-. cbv zeta in Hrun. rewrite Hrun.
  eexists. simpl. rewrite last_snoc. split; [done|]. simpl.
  rewrite rstrip_app_stripped by done. split.
  - intros Heq. destruct (string_snoc_case op) as [->|(pre & c & ->)];
      [by left|right].
    exists pre, c. split; [done|].
    exact (rstrip_last _ _ pre c Heq).
  - intros [->|(pre & c & -> & Hc)]; [done|]. by apply rstrip_keep.
Qed.

End DriverMore.

(** X16. The names the profiler uses are classified as meant: whatever the
    operation [op], [op-start] passes the test [endswith("start")] and
    [op-stop] does not. *)
Theorem endswith_conventional_names op :
  Py.endswith (op +:+ "-start") "start" = true
  /\ Py.endswith (op +:+ "-stop") "start" = false.
Proof. split; by rewrite endswith_app_short by (simpl; lia). Qed.

(** ** The further properties on concrete notifications *)

Lemma create_span_tags_without_info_witness :
  (forall info, Scenario.bare_start !! "info" <> Some (PDict info))
  /\ create_span_tags Fixture.sample_dumps Scenario.bare_start
     = Raise (KeyError "info").
Proof.
  assert (forall info, Scenario.bare_start !! "info" <> Some (PDict info))
    as Hno by (intros info H; vm_compute in H; discriminate H).
  split; [exact Hno|].
  exact (create_span_tags_without_info Fixture.sample_dumps
           Scenario.bare_start Hno).
Defined.

Lemma create_span_tags_one_family_witness :
  create_span_tags Fixture.sample_dumps
    {[ "info" := PDict Fixture.db_and_request ]}
  = Ok {[ "db.statement" := PStr "SELECT 1"; "db.params" := PStr "{...}" ]}
  /\ (dom ({[ "db.statement" := PStr "SELECT 1";
              "db.params" := PStr "{...}" ]} : gmap string pyval)
      = {[ "db.statement"; "db.params" ]}
      \/ dom ({[ "db.statement" := PStr "SELECT 1";
                 "db.params" := PStr "{...}" ]} : gmap string pyval)
         = {[ "http.path"; "http.query"; "http.method"; "http.scheme" ]}
      \/ (is_Some (({[ "db.statement" := PStr "SELECT 1";
                       "db.params" := PStr "{...}" ]}
                      : gmap string pyval) !! "name")
          /\ dom ({[ "db.statement" := PStr "SELECT 1";
                     "db.params" := PStr "{...}" ]} : gmap string pyval)
             ⊆ {[ "name"; "args"; "kwargs" ]})
      \/ ({[ "db.statement" := PStr "SELECT 1";
             "db.params" := PStr "{...}" ]} : gmap string pyval) = ∅).
Proof.
  assert (create_span_tags Fixture.sample_dumps
            {[ "info" := PDict Fixture.db_and_request ]}
          = Ok {[ "db.statement" := PStr "SELECT 1";
                  "db.params" := PStr "{...}" ]}) as Hok
    by (vm_compute; reflexivity).
  split; [exact Hok|].
  exact (create_span_tags_one_family Fixture.sample_dumps _ _ Hok).
Defined.

Lemma create_span_tags_false_db_witness :
  Scenario.null_db_start !! "info"
  = Some (PDict {[ "db" := PNone; "request" := Fixture.request ]})
  /\ Py.truthy (default PNone
       (({[ "db" := PNone; "request" := Fixture.request ]}
           : gmap string pyval) !! "db")) = false
  /\ create_span_tags Fixture.sample_dumps Scenario.null_db_start
     = create_span_tags Fixture.sample_dumps
         (<["info" := PDict (delete "db"
              {[ "db" := PNone; "request" := Fixture.request ]})]>
            Scenario.null_db_start).
Proof.
  assert (Scenario.null_db_start !! "info"
          = Some (PDict {[ "db" := PNone; "request" := Fixture.request ]}))
    as Hinfo by (vm_compute; reflexivity).
  assert (Py.truthy (default PNone
            (({[ "db" := PNone; "request" := Fixture.request ]}
                : gmap string pyval) !! "db")) = false)
    as Hdb by (vm_compute; reflexivity).
  split; [exact Hinfo|]. split; [exact Hdb|].
  exact (create_span_tags_false_db Fixture.sample_dumps _ _ Hinfo Hdb).
Defined.

Lemma notify_raise_unchanged_witness :
  Fixture.run_notify Fixture.wsgi_stop init = (Raise IndexError, init)
  /\ init = init.
Proof.
  assert (Fixture.run_notify Fixture.wsgi_stop init = (Raise IndexError, init))
    as Hrun by (vm_compute; reflexivity).
  split; [exact Hrun|].
  exact (notify_raise_unchanged Fixture.sample_strptime Fixture.sample_dumps
           Fixture.sample_context Fixture.wsgi_stop init IndexError init Hrun).
Defined.

Lemma notify_without_name_witness :
  (forall s, Scenario.anonymous !! "name" <> Some (PStr s))
  /\ Fixture.run_notify Scenario.anonymous init
     = (Raise (KeyError "name"), init).
Proof.
  assert (forall s, Scenario.anonymous !! "name" <> Some (PStr s))
    as Hno by (intros s H; vm_compute in H; discriminate H).
  split; [exact Hno|].
  exact (notify_without_name Fixture.sample_strptime Fixture.sample_dumps
           Fixture.sample_context Scenario.anonymous init Hno).
Defined.

Lemma notify_start_missing_key_witness :
  Scenario.orphan_start !! "name" = Some (PStr "wsgi-start")
  /\ Py.endswith "wsgi-start" "start" = true
  /\ Scenario.orphan_start !! "timestamp"
     = Some (PStr "2018-01-01T00:00:00.000000")
  /\ Fixture.sample_strptime "2018-01-01T00:00:00.000000"
     = Some 1514764800000000%Z
  /\ Scenario.orphan_start !! "parent_id" = None
  /\ Fixture.run_notify Scenario.orphan_start init
     = (Raise (KeyError "parent_id"), init).
Proof.
  assert (Scenario.orphan_start !! "name" = Some (PStr "wsgi-start")) as Hn
    by (vm_compute; reflexivity).
  assert (Py.endswith "wsgi-start" "start" = true) as He
    by (vm_compute; reflexivity).
  assert (Scenario.orphan_start !! "timestamp"
          = Some (PStr "2018-01-01T00:00:00.000000")) as Hts
    by (vm_compute; reflexivity).
  assert (Fixture.sample_strptime "2018-01-01T00:00:00.000000"
          = Some 1514764800000000%Z) as Ht by (vm_compute; reflexivity).
  assert (Scenario.orphan_start !! "parent_id" = None) as Hp
    by (vm_compute; reflexivity).
  repeat (split; [assumption|]).
  destruct (notify_start_missing_key Fixture.sample_strptime
              Fixture.sample_dumps Fixture.sample_context
              Scenario.orphan_start init "wsgi-start" Hn He) as [_ Hrest].
  destruct (Hrest _ _ Hts Ht) as [Hparent _].
  exact (Hparent Hp).
Defined.

Lemma notify_tag_failure_aborts_witness :
  Scenario.nameless_start !! "name" = Some (PStr "driver-start")
  /\ Py.endswith "driver-start" "start" = true
  /\ Scenario.nameless_start !! "timestamp"
     = Some (PStr "2018-01-01T00:00:01.500000")
  /\ Fixture.sample_strptime "2018-01-01T00:00:01.500000"
     = Some 1514764801500000%Z
  /\ Scenario.nameless_start !! "parent_id" = Some (PInt 1)
  /\ (PInt 1 <> PNone ->
      exists base_id,
        Scenario.nameless_start !! "base_id" = Some base_id
        /\ is_ok (SpanContext_new base_id (PInt 1) true true) = true)
  /\ create_span_tags Fixture.sample_dumps Scenario.nameless_start
     = Raise (KeyError "name")
  /\ Fixture.run_notify Scenario.nameless_start init
     = (Raise (KeyError "name"), init).
Proof.
  assert (PInt 1 <> PNone ->
          exists base_id,
            Scenario.nameless_start !! "base_id" = Some base_id
            /\ is_ok (SpanContext_new base_id (PInt 1) true true) = true)
    as Hbase
    by (intros _; exists (PInt 1000); split; vm_compute; reflexivity).
  repeat (split; [first [exact Hbase | vm_compute; reflexivity]|]).
  apply (notify_tag_failure_aborts Fixture.sample_strptime
           Fixture.sample_dumps Fixture.sample_context
           Scenario.nameless_start init "driver-start"
           "2018-01-01T00:00:01.500000" 1514764801500000 (PInt 1)
           (KeyError "name"));
    first [exact Hbase | vm_compute; reflexivity].
Defined.

Lemma notify_start_span_witness :
  start_ok Fixture.sample_strptime Fixture.sample_dumps Fixture.child_start
  = true
  /\ Fixture.child_start !! "parent_id" = Some (PInt 1)
  /\ exists span tags,
       last (started (Fixture.run_notify Fixture.child_start init).2)
       = Some span
       /\ create_span_tags Fixture.sample_dumps Fixture.child_start = Ok tags
       /\ (forall k, span_attributes span !! k
                     = tags !! k ≫= clean_attribute k)
       /\ span_parent span
          = Fixture.child_start !! "base_id" ≫= (fun base_id =>
              let ctx := mkSpanContext base_id (PInt 1) true true in
              if span_context_is_valid ctx then Some ctx else None).
Proof.
  assert (start_ok Fixture.sample_strptime Fixture.sample_dumps
            Fixture.child_start = true) as Hok by (vm_compute; reflexivity).
  assert (Fixture.child_start !! "parent_id" = Some (PInt 1)) as Hp
    by (vm_compute; reflexivity).
  split; [exact Hok|]. split; [exact Hp|].
  exact (notify_start_span Fixture.sample_strptime Fixture.sample_dumps
           Fixture.sample_context Fixture.child_start init (PInt 1) Hok Hp).
Defined.

Lemma notify_identifiers_link_witness :
  start_ok Fixture.sample_strptime Fixture.sample_dumps Fixture.root_start
  = true
  /\ (Fixture.run_notify Fixture.root_start init).1
     = Ok (PList [PInt 1000; PInt 1])
  /\ start_ok Fixture.sample_strptime Fixture.sample_dumps Fixture.child_start
     = true
  /\ Fixture.child_start !! "base_id" = Some (PInt 1000)
  /\ Fixture.child_start !! "parent_id" = Some (PInt 1)
  /\ PInt 1 <> PNone
  /\ span_context_is_valid (mkSpanContext (PInt 1000) (PInt 1) true true)
     = true
  /\ exists root_span child_span,
       started (Fixture.run_notify Fixture.child_start
                  (Fixture.run_notify Fixture.root_start init).2).2
       = started init ++ [root_span; child_span]
       /\ trace_id (span_context root_span) = PInt 1000
       /\ span_id (span_context root_span) = PInt 1
       /\ span_parent child_span
          = Some (mkSpanContext (PInt 1000) (PInt 1) true true).
Proof.
  assert (Fixture.run_notify Fixture.root_start init
          = (Ok (PList [PInt 1000; PInt 1]),
             (Fixture.run_notify Fixture.root_start init).2)) as Hrun
    by (vm_compute; reflexivity).
  assert (PInt 1 <> PNone) as Hne by discriminate.
  repeat (split; [first [exact Hne | vm_compute; reflexivity]|]).
  apply (notify_identifiers_link Fixture.sample_strptime Fixture.sample_dumps
           Fixture.sample_context Fixture.root_start Fixture.child_start init
           (PInt 1000) (PInt 1) _);
    first [exact Hne | exact Hrun | vm_compute; reflexivity].
Defined.

Lemma notify_keeps_accounted_witness :
  accounted init
  /\ accounted (Fixture.run_notify Fixture.root_start init).2.
Proof.
  assert (accounted init) as Hinit.
  { split; [reflexivity|]. split; intros x Hx; by apply elem_of_nil in Hx. }
  split; [exact Hinit|].
  exact (notify_keeps_accounted Fixture.sample_strptime Fixture.sample_dumps
           Fixture.sample_context Fixture.root_start init Hinit).
Defined.

Lemma notify_stop_matches_start_witness :
  start_ok Fixture.sample_strptime Fixture.sample_dumps Fixture.root_start
  = true
  /\ stop_ok Fixture.wsgi_stop = true
  /\ well_nested Fixture.sample_strptime Fixture.sample_dumps
       [Fixture.child_start; Fixture.driver_stop]
  /\ exists st' span,
       Fixture.run_notify_all
         (Fixture.root_start
            :: [Fixture.child_start; Fixture.driver_stop] ++ [Fixture.wsgi_stop])
         init = (Ok tt, st')
       /\ last (started (Fixture.run_notify Fixture.root_start init).2)
          = Some span
       /\ last (ended st') = Some span
       /\ spans st' = spans init.
Proof.
  assert (start_ok Fixture.sample_strptime Fixture.sample_dumps
            Fixture.root_start = true) as Hstart by (vm_compute; reflexivity).
  assert (stop_ok Fixture.wsgi_stop = true) as Hstop
    by (vm_compute; reflexivity).
  assert (well_nested Fixture.sample_strptime Fixture.sample_dumps
            [Fixture.child_start; Fixture.driver_stop]) as Hbody.
  { apply (wn_wrap _ _ Fixture.child_start [] Fixture.driver_stop);
      [vm_compute; reflexivity | vm_compute; reflexivity | apply wn_nil]. }
  split; [exact Hstart|]. split; [exact Hstop|]. split; [exact Hbody|].
  exact (notify_stop_matches_start Fixture.sample_strptime
           Fixture.sample_dumps Fixture.sample_context Fixture.root_start
           [Fixture.child_start; Fixture.driver_stop] Fixture.wsgi_stop init
           Hstart Hstop Hbody).
Defined.

Lemma notify_all_outcome_witness :
  (forall p, p ∈ [Fixture.root_start; Fixture.wsgi_stop; Fixture.driver_stop] ->
     start_ok Fixture.sample_strptime Fixture.sample_dumps p = true
     \/ stop_ok p = true)
  /\ depth_after Fixture.sample_strptime Fixture.sample_dumps 0
       [Fixture.root_start; Fixture.wsgi_stop; Fixture.driver_stop] = None
  /\ exists st',
       Fixture.run_notify_all
         [Fixture.root_start; Fixture.wsgi_stop; Fixture.driver_stop] init
       = (Raise IndexError, st')
       /\ spans st' = [].
Proof.
  assert (forall p,
            p ∈ [Fixture.root_start; Fixture.wsgi_stop; Fixture.driver_stop] ->
            start_ok Fixture.sample_strptime Fixture.sample_dumps p = true
            \/ stop_ok p = true) as Hall.
  { intros p Hp. apply list_elem_of_In in Hp.
    destruct Hp as [<-|[<-|[<-|[]]]]; [left|right|right];
      vm_compute; reflexivity. }
  assert (depth_after Fixture.sample_strptime Fixture.sample_dumps 0
            [Fixture.root_start; Fixture.wsgi_stop; Fixture.driver_stop]
          = None) as Hdepth by (vm_compute; reflexivity).
  split; [exact Hall|]. split; [exact Hdepth|].
  pose proof (notify_all_outcome Fixture.sample_strptime Fixture.sample_dumps
                Fixture.sample_context _ init Hall) as Hout.
  change (length (spans init)) with 0 in Hout.
  rewrite Hdepth in Hout. exact Hout.
Defined.

Lemma notify_span_name_rstrip_witness :
  start_ok Fixture.sample_strptime Fixture.sample_dumps Fixture.child_start
  = true
  /\ Fixture.child_start !! "name" = Some (PStr "driver-start")
  /\ exists span removed,
       last (started (Fixture.run_notify Fixture.child_start init).2)
       = Some span
       /\ "driver-start" = span_name span +:+ removed
       /\ (forall c, Py.str_mem c removed = true ->
                     Py.str_mem c "-start" = true)
       /\ (forall pre c, span_name span = pre +:+ String c "" ->
                         Py.str_mem c "-start" = false).
Proof.
  assert (start_ok Fixture.sample_strptime Fixture.sample_dumps
            Fixture.child_start = true) as Hok by (vm_compute; reflexivity).
  assert (Fixture.child_start !! "name" = Some (PStr "driver-start")) as Hn
    by (vm_compute; reflexivity).
  split; [exact Hok|]. split; [exact Hn|].
  exact (notify_span_name_rstrip Fixture.sample_strptime Fixture.sample_dumps
           Fixture.sample_context Fixture.child_start init "driver-start"
           Hok Hn).
Defined.

Lemma notify_span_name_exact_witness :
  start_ok Fixture.sample_strptime Fixture.sample_dumps Fixture.root_start
  = true
  /\ Fixture.root_start !! "name" = Some (PStr ("wsgi" +:+ "-start"))
  /\ exists span,
       last (started (Fixture.run_notify Fixture.root_start init).2)
       = Some span
       /\ (span_name span = "wsgi"
           <-> "wsgi" = ""
               \/ exists pre c, "wsgi" = pre +:+ String c ""
                                /\ Py.str_mem c "-start" = false).
Proof.
  assert (start_ok Fixture.sample_strptime Fixture.sample_dumps
            Fixture.root_start = true) as Hok by (vm_compute; reflexivity).
  assert (Fixture.root_start !! "name" = Some (PStr ("wsgi" +:+ "-start")))
    as Hn by (vm_compute; reflexivity).
  split; [exact Hok|]. split; [exact Hn|].
  exact (notify_span_name_exact Fixture.sample_strptime Fixture.sample_dumps
           Fixture.sample_context Fixture.root_start init "wsgi" Hok Hn).
Defined.

